(** * The tool invocation pipeline of [pydantic_ai/tools.py]

    A shallow embedding of the [Tool] class: construction ([__init__],
    [from_schema]), definition preparation ([prepare_tool_def]) and the
    invocation path [_run] / [_on_error] with its per-tool retry counter.

    Conventions.
    - Python [int] is [Z]; [int | None] is [option Z].
    - Python values of type [Any] are [pyval]; a [dict[str, Any]] is an
      association list.
    - A Python call either returns or raises: [outcome].  Mutation of
      [self.current_retry] and the side effects of the user's callable are
      threaded through a [Store]; a raise keeps the mutations made so far.
    - [await] is sequential composition: [_run] always awaits the callable
      before it goes on.
    - [Tool.run] wraps [_run] in an OpenTelemetry span; the tracer is
      modelled by the operations [run] calls on it.  The methods of
      [GenerateToolJsonSchema] are modelled over the result of the parent
      class. *)

From Stdlib Require Import ZArith String List Bool Lia.
From Stdlib Require Import DecimalString DecimalZ DecimalPos DecimalFacts.
Import ListNotations.
Local Open Scope string_scope.
Local Open Scope Z_scope.
Set Warnings "-register-all".

(* ================================================================== *)
(** ** Python values and exceptions *)

Inductive pyval : Type :=
| PNone
| PBool (b : bool)
| PInt (z : Z)
| PStr (s : string)
| PList (l : list pyval)
| PDict (d : list (string * pyval)).

Definition dict : Type := list (string * pyval).

(** [pydantic_core.ErrorDetails]: one field-level error.  [ctx] and [url]
    are the two optional keys. *)
Inductive loc_item : Type :=
| LocKey (s : string)
| LocIndex (i : Z).

Record ErrorDetails : Type := {
  ed_type : string;
  ed_loc : list loc_item;
  ed_msg : string;
  ed_input : pyval;
  ed_ctx : option dict;
  ed_url : option string
}.

(** The exceptions that can travel through [_run]: pydantic's
    [ValidationError], and [ModelRetry] and [UnexpectedModelBehavior] of
    [exceptions.py], in the shape [tools.py] uses them
    ([exc.errors(...)], [exc.message], [UnexpectedModelBehavior(text)]);
    every other exception class is an [OtherException].
    [raise X from exc] stores [exc] as the cause of [X]. *)
Inductive exn : Type :=
| ValidationError (line_errors : list ErrorDetails)
| ModelRetry (message : string)
| UnexpectedModelBehavior (message : string) (cause : option exn)
| OtherException (cls : string) (text : string).

(** [ValidationError.errors(include_url=..., include_context=...)]
    (pydantic_core): the line errors, without the [url] key unless
    [include_url], without the [ctx] key unless [include_context]. *)
Definition errors (line_errors : list ErrorDetails)
    (include_url include_context : bool) : list ErrorDetails :=
  map (fun d =>
         {| ed_type := ed_type d;
            ed_loc := ed_loc d;
            ed_msg := ed_msg d;
            ed_input := ed_input d;
            ed_ctx := if include_context then ed_ctx d else None;
            ed_url := if include_url then ed_url d else None |})
      line_errors.

(** The argument type of [_on_error]: [ValidationError | ModelRetry]. *)
Inductive recoverable : Type :=
| RValidationError (line_errors : list ErrorDetails)
| RModelRetry (message : string).

Definition exn_of (exc : recoverable) : exn :=
  match exc with
  | RValidationError le => ValidationError le
  | RModelRetry m => ModelRetry m
  end.

Inductive outcome (A : Type) : Type :=
| Ok (a : A)
| Raise (e : exn).
Arguments Ok {A} a.
Arguments Raise {A} e.

(* ================================================================== *)
(** ** Messages, run context, schemas *)

(** The message classes come from [messages.py]; each has the fields
    that [tools.py] reads from it or passes to its constructor. *)

(** What [message.args] can be: a [str], a [dict[str, Any]], or [None]. *)
Inductive tool_args : Type :=
| ArgsStr (s : string)
| ArgsDict (d : dict)
| ArgsNone.

Module ToolCallPart.
Record t : Type := {
  tool_name : string;
  args : tool_args;
  tool_call_id : string
}.
End ToolCallPart.

Module ToolReturnPart.
Record t : Type := {
  tool_name : string;
  content : pyval;
  tool_call_id : string
}.
End ToolReturnPart.

(** [RetryPromptPart.content : list[ErrorDetails] | str]. *)
Inductive retry_content : Type :=
| ErrorList (details : list ErrorDetails)
| ErrorText (text : string).

Module RetryPromptPart.
Record t : Type := {
  tool_name : string;
  content : retry_content;
  tool_call_id : string
}.
End RetryPromptPart.

(** The return type of [_run]: [ToolReturnPart | RetryPromptPart]. *)
Inductive response : Type :=
| Returned (p : ToolReturnPart.t)
| RetryPrompt (p : RetryPromptPart.t).

(** [RunContext[AgentDepsT]] of [_run_context.py], with the caller's
    [deps] and the three fields [_run] sets. *)
Module RunContext.
Record t (AgentDepsT : Type) : Type := {
  deps : AgentDepsT;
  retry : Z;
  tool_name : string;
  tool_call_id : string
}.
Arguments deps {AgentDepsT} _.
Arguments retry {AgentDepsT} _.
Arguments tool_name {AgentDepsT} _.
Arguments tool_call_id {AgentDepsT} _.

(** [dataclasses.replace(ctx, retry=.., tool_name=.., tool_call_id=..)] *)
Definition replace {AgentDepsT : Type} (ctx : t AgentDepsT)
    (retry' : Z) (tool_name' tool_call_id' : string) : t AgentDepsT :=
  {| deps := deps ctx;
     retry := retry';
     tool_name := tool_name';
     tool_call_id := tool_call_id' |}.
End RunContext.

(** [pydantic_core.SchemaValidator], by its two entry points. *)
Module SchemaValidator.
Record t : Type := {
  validate_json : string -> outcome pyval;
  validate_python : pyval -> outcome pyval
}.
End SchemaValidator.

(** A tool function: its [__name__] and what a call does.  The call gets
    the leading [RunContext] argument (when one is passed), the keyword
    arguments, and the state of the world it may read and change. *)
Module Callable.
Record t (World AgentDepsT : Type) : Type := {
  __name__ : string;
  apply : option (RunContext.t AgentDepsT) -> pyval -> World ->
          outcome pyval * World
}.
Arguments __name__ {World AgentDepsT} _.
Arguments apply {World AgentDepsT} _ _ _ _.
End Callable.

(** [_function_schema.FunctionSchema], with the fields [from_schema]
    fills in. *)
Module FunctionSchema.
Record t (World AgentDepsT : Type) : Type := {
  function : Callable.t World AgentDepsT;
  description : option string;
  validator : SchemaValidator.t;
  json_schema : pyval;
  takes_ctx : bool;
  is_async : bool
}.
Arguments function {World AgentDepsT} _.
Arguments description {World AgentDepsT} _.
Arguments validator {World AgentDepsT} _.
Arguments json_schema {World AgentDepsT} _.
Arguments takes_ctx {World AgentDepsT} _.
Arguments is_async {World AgentDepsT} _.
End FunctionSchema.

Module ToolDefinition.
Record t : Type := {
  name : string;
  parameters_json_schema : pyval;
  description : option string;
  outer_typed_dict_key : option string;
  strict : option bool
}.
End ToolDefinition.

Inductive DocstringFormat : Type := google | numpy | sphinx | auto.

(* ================================================================== *)
(** ** Small pieces of Python *)

(** [str(n)] for an [int]. *)
Definition str_int (n : Z) : string := NilZero.string_of_int (Z.to_int n).

(** [f'{x}'] for [x : int | None]. *)
Definition format_optional_int (x : option Z) : string :=
  match x with
  | None => "None"
  | Some n => str_int n
  end.

(** [a or b] on [str | None] with a [str] fallback. *)
Definition or_str (a : option string) (b : string) : string :=
  match a with
  | None => b
  | Some s => if String.eqb s "" then b else s
  end.

(** [a or b] on [str | None] with a [str | None] fallback. *)
Definition or_optional_str (a b : option string) : option string :=
  match a with
  | None => b
  | Some s => if String.eqb s "" then b else a
  end.

(** [s or '{}'] on a [str]. *)
Definition or_empty_object (s : string) : string :=
  if String.eqb s "" then "{}" else s.

(** [d or {}] on [dict | None]. *)
Definition or_empty_dict (d : option dict) : dict :=
  match d with
  | None => []
  | Some [] => []
  | Some (kv :: rest) => kv :: rest
  end.

(* ================================================================== *)
(** ** The [Tool] class *)

Section ToolClass.

(** What the user's functions can observe and change, and the type of
    the caller's dependency data ([Tool] is [Generic[AgentDepsT]]). *)
Context {World : Type} {AgentDepsT : Type}.

(** A [ToolPrepareFunc]: an asynchronous hook that returns a definition
    or [None]. *)
Definition ToolPrepareFunc : Type :=
  RunContext.t AgentDepsT -> ToolDefinition.t -> World ->
  outcome (option ToolDefinition.t) * World.

Record Tool : Type := {
  function : Callable.t World AgentDepsT;
  takes_ctx : bool;
  max_retries : option Z;
  name : string;
  description : option string;
  prepare : option ToolPrepareFunc;
  docstring_format : DocstringFormat;
  require_parameter_descriptions : bool;
  strict : option bool;
  function_schema : FunctionSchema.t World AgentDepsT;
  current_retry : Z
}.

(** [self.current_retry = n] *)
Definition with_current_retry (n : Z) (self : Tool) : Tool :=
  {| function := function self;
     takes_ctx := takes_ctx self;
     max_retries := max_retries self;
     name := name self;
     description := description self;
     prepare := prepare self;
     docstring_format := docstring_format self;
     require_parameter_descriptions := require_parameter_descriptions self;
     strict := strict self;
     function_schema := function_schema self;
     current_retry := n |}.

(** *** Parts of the repository outside [tools.py], taken as parameters *)

(** The class of JSON-schema generators and [GenerateToolJsonSchema]. *)
Context {GenerateJsonSchema : Type}.
Variable GenerateToolJsonSchema : GenerateJsonSchema.

(** [_function_schema.function_schema(function, schema_generator,
    takes_ctx=, docstring_format=, require_parameter_descriptions=)]. *)
Variable function_schema_of :
  Callable.t World AgentDepsT -> GenerateJsonSchema -> option bool ->
  DocstringFormat -> bool -> FunctionSchema.t World AgentDepsT.

(** [_utils.is_async_callable]. *)
Variable is_async_callable : Callable.t World AgentDepsT -> bool.

(** [FunctionSchema.call(args_dict, ctx)]. *)
Variable call :
  FunctionSchema.t World AgentDepsT -> pyval -> RunContext.t AgentDepsT ->
  World -> outcome pyval * World.

(** JSON decoding as done by a validator built on
    [core_schema.any_schema()]. *)
Variable from_json : string -> outcome pyval.

(** *** Construction *)

(** [Tool.__init__]; [current_retry] has [default=0, init=False]. *)
Definition __init__
    (function : Callable.t World AgentDepsT)
    (takes_ctx : option bool)
    (max_retries : option Z)
    (name : option string)
    (description : option string)
    (prepare : option ToolPrepareFunc)
    (docstring_format : DocstringFormat)
    (require_parameter_descriptions : bool)
    (schema_generator : GenerateJsonSchema)
    (strict : option bool)
    (function_schema : option (FunctionSchema.t World AgentDepsT)) : Tool :=
  let function_schema' :=
    match function_schema with
    | Some fs => fs
    | None => function_schema_of function schema_generator takes_ctx
                docstring_format require_parameter_descriptions
    end in
  {| function := function;
     function_schema := function_schema';
     takes_ctx := FunctionSchema.takes_ctx function_schema';
     max_retries := max_retries;
     name := or_str name (Callable.__name__ function);
     description :=
       or_optional_str description (FunctionSchema.description function_schema');
     prepare := prepare;
     docstring_format := docstring_format;
     require_parameter_descriptions := require_parameter_descriptions;
     strict := strict;
     current_retry := 0 |}.

(** [SchemaValidator(schema=core_schema.any_schema())]: every Python
    value is valid and comes back as it is. *)
Definition any_schema_validator : SchemaValidator.t :=
  {| SchemaValidator.validate_json := from_json;
     SchemaValidator.validate_python := fun v => Ok v |}.

(** [Tool.from_schema] *)
Definition from_schema
    (function : Callable.t World AgentDepsT)
    (name : string)
    (description : option string)
    (json_schema : pyval) : Tool :=
  let function_schema :=
    {| FunctionSchema.function := function;
       FunctionSchema.description := description;
       FunctionSchema.validator := any_schema_validator;
       FunctionSchema.json_schema := json_schema;
       FunctionSchema.takes_ctx := false;
       FunctionSchema.is_async := is_async_callable function |} in
  __init__ function (Some false) None (Some name) description None
           auto false GenerateToolJsonSchema None (Some function_schema).

(** *** The effects of a method body *)

Record Store : Type := {
  self : Tool;
  world : World
}.

Definition M (A : Type) : Type := Store -> outcome A * Store.

Definition ret {A : Type} (a : A) : M A := fun s => (Ok a, s).

Definition bind {A B : Type} (m : M A) (k : A -> M B) : M B :=
  fun s =>
    match m s with
    | (Ok a, s') => k a s'
    | (Raise e, s') => (Raise e, s')
    end.

Definition raise {A : Type} (e : exn) : M A := fun s => (Raise e, s).

(** [try: body / except <handled kinds>: handler]; an exception the
    handler does not take, or one raised by the handler, goes on up. *)
Definition try_except {A : Type} (body : M A)
    (handler : exn -> option (M A)) : M A :=
  fun s =>
    match body s with
    | (Ok a, s') => (Ok a, s')
    | (Raise e, s') =>
        match handler e with
        | Some h => h s'
        | None => (Raise e, s')
        end
    end.

Definition get_self : M Tool := fun s => (Ok (self s), s).

Definition set_current_retry (n : Z) : M unit :=
  fun s => (Ok tt, {| self := with_current_retry n (self s);
                      world := world s |}).

(** A call that cannot touch the store. *)
Definition pure_call {A : Type} (o : outcome A) : M A := fun s => (o, s).

(** A call into user code: it works on the world, not on [self]. *)
Definition user_call {A : Type} (f : World -> outcome A * World) : M A :=
  fun s =>
    let (o, w) := f (world s) in
    (o, {| self := self s; world := w |}).

Notation "x <- m ;; k" := (bind m (fun x => k))
  (at level 61, m at next level, right associativity).
Notation "m ;;; k" := (bind m (fun _ => k))
  (at level 61, right associativity).

(** *** Methods *)

(** [Tool.prepare_tool_def] *)
Definition prepare_tool_def (ctx : RunContext.t AgentDepsT)
    : M (option ToolDefinition.t) :=
  this <- get_self ;;
  let tool_def :=
    {| ToolDefinition.name := name this;
       ToolDefinition.description := description this;
       ToolDefinition.parameters_json_schema :=
         FunctionSchema.json_schema (function_schema this);
       ToolDefinition.outer_typed_dict_key := None;
       ToolDefinition.strict := strict this |} in
  match prepare this with
  | Some hook => user_call (hook ctx tool_def)
  | None => ret (Some tool_def)
  end.

(** [Tool._on_error] *)
Definition _on_error (exc : recoverable) (call_message : ToolCallPart.t)
    : M RetryPromptPart.t :=
  this <- get_self ;;
  set_current_retry (current_retry this + 1) ;;;
  this <- get_self ;;
  if match max_retries this with
     | None => true
     | Some m => current_retry this >? m
     end
  then
    raise (UnexpectedModelBehavior
             ("Tool exceeded max retries count of "
                ++ format_optional_int (max_retries this))
             (Some (exn_of exc)))
  else
    let content :=
      match exc with
      | RValidationError line_errors =>
          ErrorList (errors line_errors false false)
      | RModelRetry message => ErrorText message
      end in
    ret {| RetryPromptPart.tool_name := ToolCallPart.tool_name call_message;
           RetryPromptPart.content := content;
           RetryPromptPart.tool_call_id :=
             ToolCallPart.tool_call_id call_message |}.

(** [Tool._run].  Each [try] block yields [inl] of what it computed, or
    [inr] of the response its [except] clause returns from [_run]. *)
Definition _run (message : ToolCallPart.t)
    (run_context : RunContext.t AgentDepsT) : M response :=
  validated <-
    try_except
      (this <- get_self ;;
       let validator := FunctionSchema.validator (function_schema this) in
       match ToolCallPart.args message with
       | ArgsStr s =>
           args_dict <- pure_call
             (SchemaValidator.validate_json validator (or_empty_object s)) ;;
           ret (inl args_dict)
       | ArgsDict d =>
           args_dict <- pure_call
             (SchemaValidator.validate_python validator
                (PDict (or_empty_dict (Some d)))) ;;
           ret (inl args_dict)
       | ArgsNone =>
           args_dict <- pure_call
             (SchemaValidator.validate_python validator
                (PDict (or_empty_dict None))) ;;
           ret (inl args_dict)
       end)
      (fun e =>
         match e with
         | ValidationError line_errors =>
             Some (p <- _on_error (RValidationError line_errors) message ;;
                   ret (inr (RetryPrompt p)))
         | _ => None
         end) ;;
  match validated with
  | inr early => ret early
  | inl args_dict =>
      this <- get_self ;;
      let ctx :=
        RunContext.replace run_context
          (current_retry this)
          (ToolCallPart.tool_name message)
          (ToolCallPart.tool_call_id message) in
      called <-
        try_except
          (response_content <-
             user_call (call (function_schema this) args_dict ctx) ;;
           ret (inl response_content))
          (fun e =>
             match e with
             | ModelRetry m =>
                 Some (p <- _on_error (RModelRetry m) message ;;
                       ret (inr (RetryPrompt p)))
             | _ => None
             end) ;;
      match called with
      | inr early => ret early
      | inl response_content =>
          set_current_retry 0 ;;;
          ret (Returned
                 {| ToolReturnPart.tool_name :=
                      ToolCallPart.tool_name message;
                    ToolReturnPart.content := response_content;
                    ToolReturnPart.tool_call_id :=
                      ToolCallPart.tool_call_id message |})
      end
  end.

End ToolClass.

Arguments Tool : clear implicits.
Arguments ToolPrepareFunc : clear implicits.
Arguments Store : clear implicits.
Arguments M : clear implicits.

(* ================================================================== *)
(** ** Dispatch to the callable *)

(** Modelled from the spec: [FunctionSchema.call], the method [_run] hands
    the validated arguments and the derived context to, is defined in
    [_function_schema.py], which is not among the sources.  Spec 4.3:
    a callable declared without a context parameter is invoked with only
    the decoded parameters; a callable declared with one receives the
    context object as its first argument. *)
Definition FunctionSchema_call {World AgentDepsT : Type}
    (fs : FunctionSchema.t World AgentDepsT) (args_dict : pyval)
    (ctx : RunContext.t AgentDepsT) : World -> outcome pyval * World :=
  Callable.apply (FunctionSchema.function fs)
    (if FunctionSchema.takes_ctx fs then Some ctx else None)
    args_dict.

(* ================================================================== *)
(** ** Vocabulary of the statements *)

Section Vocabulary.

Context {World : Type} {AgentDepsT : Type}.

Variable call :
  FunctionSchema.t World AgentDepsT -> pyval -> RunContext.t AgentDepsT ->
  World -> outcome pyval * World.

(** [dataclasses.replace(tool, max_retries=m)], as a caller that owns the
    tool may do before running it. *)
Definition with_max_retries (m : option Z) (t : Tool World AgentDepsT)
    : Tool World AgentDepsT :=
  {| function := function t;
     takes_ctx := takes_ctx t;
     max_retries := m;
     name := name t;
     description := description t;
     prepare := prepare t;
     docstring_format := docstring_format t;
     require_parameter_descriptions := require_parameter_descriptions t;
     strict := strict t;
     function_schema := function_schema t;
     current_retry := current_retry t |}.

(** The same tool under another name. *)
Definition with_name (n : string) (t : Tool World AgentDepsT)
    : Tool World AgentDepsT :=
  {| function := function t;
     takes_ctx := takes_ctx t;
     max_retries := max_retries t;
     name := n;
     description := description t;
     prepare := prepare t;
     docstring_format := docstring_format t;
     require_parameter_descriptions := require_parameter_descriptions t;
     strict := strict t;
     function_schema := function_schema t;
     current_retry := current_retry t |}.

(** The context [_run] builds for the call (lines 388-393). *)
Definition derived_context (this : Tool World AgentDepsT)
    (message : ToolCallPart.t) (run_context : RunContext.t AgentDepsT)
    : RunContext.t AgentDepsT :=
  {| RunContext.deps := RunContext.deps run_context;
     RunContext.retry := current_retry this;
     RunContext.tool_name := ToolCallPart.tool_name message;
     RunContext.tool_call_id := ToolCallPart.tool_call_id message |}.

(** What the tool's validator says about the arguments of a call. *)
Definition validate_args (this : Tool World AgentDepsT)
    (message : ToolCallPart.t) : outcome pyval :=
  let validator := FunctionSchema.validator (function_schema this) in
  match ToolCallPart.args message with
  | ArgsStr s =>
      SchemaValidator.validate_json validator
        (if String.eqb s "" then "{}" else s)
  | ArgsDict d => SchemaValidator.validate_python validator (PDict d)
  | ArgsNone => SchemaValidator.validate_python validator (PDict [])
  end.

(** A recoverable failure handed to the retry governor. *)
Definition retry_prompt_or_raise (exc : recoverable)
    (message : ToolCallPart.t) : M World AgentDepsT response :=
  bind (_on_error exc message) (fun p => ret (RetryPrompt p)).

(** The content of the Retry Prompt for a recoverable failure. *)
Definition retry_content_of (exc : recoverable) : retry_content :=
  match exc with
  | RValidationError line_errors => ErrorList (errors line_errors false false)
  | RModelRetry message => ErrorText message
  end.

(** The text of the fatal error for a tool whose bound is [m]. *)
Definition exceeded_text (m : option Z) : string :=
  "Tool exceeded max retries count of " ++ format_optional_int m.

(** The next recoverable failure of [this] goes past its bound. *)
Definition exhausted (this : Tool World AgentDepsT) : bool :=
  match max_retries this with
  | None => true
  | Some m => current_retry this + 1 >? m
  end.

(** What [_run] makes of the callable's outcome [r], reached in store [s]
    (lines 396-404). *)
Definition after_call (message : ToolCallPart.t) (s : Store World AgentDepsT)
    (r : outcome pyval * World) : outcome response * Store World AgentDepsT :=
  match fst r with
  | Ok response_content =>
      (Ok (Returned
             {| ToolReturnPart.tool_name := ToolCallPart.tool_name message;
                ToolReturnPart.content := response_content;
                ToolReturnPart.tool_call_id :=
                  ToolCallPart.tool_call_id message |}),
       {| self := with_current_retry 0 (self s); world := snd r |})
  | Raise (ModelRetry m) =>
      retry_prompt_or_raise (RModelRetry m) message
        {| self := self s; world := snd r |}
  | Raise e => (Raise e, {| self := self s; world := snd r |})
  end.

(** What [_run] makes of the validator's verdict [v] in store [s]. *)
Definition after_validation (message : ToolCallPart.t)
    (run_context : RunContext.t AgentDepsT) (s : Store World AgentDepsT)
    (v : outcome pyval) : outcome response * Store World AgentDepsT :=
  match v with
  | Ok args_dict =>
      after_call message s
        (call (function_schema (self s)) args_dict
           (derived_context (self s) message run_context) (world s))
  | Raise (ValidationError line_errors) =>
      retry_prompt_or_raise (RValidationError line_errors) message s
  | Raise e => (Raise e, s)
  end.

(** How one attempt goes, as far as the validator and the callable decide
    it. *)
Inductive attempt_kind : Type :=
| DecodeFails (line_errors : list ErrorDetails)
| DecodeCrashes (e : exn)
| RetryRequested (message : string) (w : World)
| CallableFails (e : exn) (w : World)
| Succeeds (response_content : pyval) (w : World).

Definition attempt (s : Store World AgentDepsT) (message : ToolCallPart.t)
    (run_context : RunContext.t AgentDepsT) : attempt_kind :=
  match validate_args (self s) message with
  | Raise (ValidationError line_errors) => DecodeFails line_errors
  | Raise e => DecodeCrashes e
  | Ok args_dict =>
      match call (function_schema (self s)) args_dict
              (derived_context (self s) message run_context) (world s) with
      | (Ok c, w) => Succeeds c w
      | (Raise (ModelRetry m), w) => RetryRequested m w
      | (Raise e, w) => CallableFails e w
      end
  end.

(** The two recoverable kinds. *)
Definition is_recoverable (a : attempt_kind) : bool :=
  match a with
  | DecodeFails _ | RetryRequested _ _ => true
  | _ => false
  end.

(** A caller that executes one call after the other on the same tool. *)
Fixpoint run_all (calls : list (ToolCallPart.t * RunContext.t AgentDepsT))
    (s : Store World AgentDepsT)
    : list (outcome response) * Store World AgentDepsT :=
  match calls with
  | [] => ([], s)
  | (message, run_context) :: rest =>
      let (r, s') := _run call message run_context s in
      let (rs, s'') := run_all rest s' in
      (r :: rs, s'')
  end.

(** Every attempt of the run is a recoverable failure. *)
Fixpoint all_recoverable
    (calls : list (ToolCallPart.t * RunContext.t AgentDepsT))
    (s : Store World AgentDepsT) : Prop :=
  match calls with
  | [] => True
  | (message, run_context) :: rest =>
      is_recoverable (attempt s message run_context) = true /\
      all_recoverable rest (snd (_run call message run_context s))
  end.

End Vocabulary.

Arguments attempt_kind : clear implicits.

(** Reading the bound back from the text of the fatal error. *)
Fixpoint strip_prefix (p s : string) : option string :=
  match p with
  | EmptyString => Some s
  | String a p' =>
      match s with
      | EmptyString => None
      | String b s' => if Ascii.eqb a b then strip_prefix p' s' else None
      end
  end.

Definition reported_bound (e : exn) : option Z :=
  match e with
  | UnexpectedModelBehavior message _ =>
      match strip_prefix "Tool exceeded max retries count of " message with
      | Some digits => option_map Z.of_int (NilZero.int_of_string digits)
      | None => None
      end
  | _ => None
  end.

(* ================================================================== *)
(** ** A concrete tool *)

(** The world of the examples counts the calls made to the callable. *)
Definition demo_world : Type := nat.

(** The field error pydantic reports for text that is not JSON. *)
Definition json_invalid (text : string) : ErrorDetails :=
  {| ed_type := "json_invalid";
     ed_loc := [];
     ed_msg := "Invalid JSON: expected value at line 1 column 1";
     ed_input := PStr text;
     ed_ctx := Some [("error", PStr "expected value at line 1 column 1")];
     ed_url := Some "https://errors.pydantic.dev/2/v/json_invalid" |}.

(** The field error pydantic reports for a value that is not a mapping. *)
Definition dict_type (v : pyval) : ErrorDetails :=
  {| ed_type := "dict_type";
     ed_loc := [];
     ed_msg := "Input should be a valid dictionary";
     ed_input := v;
     ed_ctx := None;
     ed_url := Some "https://errors.pydantic.dev/2/v/dict_type" |}.

(** A validator for a schema that requires no field: it takes JSON
    objects (here the text of the empty one) and mappings. *)
Definition demo_validator : SchemaValidator.t :=
  {| SchemaValidator.validate_json := fun text =>
       if String.eqb text "{}" then Ok (PDict [])
       else Raise (ValidationError [json_invalid text]);
     SchemaValidator.validate_python := fun v =>
       match v with
       | PDict d => Ok (PDict d)
       | _ => Raise (ValidationError [dict_type v])
       end |}.

(** A callable that doubles a positive [x], asks for a retry on any other
    [x], fails on the key [crash], and otherwise reports the context it
    was given. *)
Definition demo_function : Callable.t demo_world unit :=
  {| Callable.__name__ := "double";
     Callable.apply := fun ctx args_dict calls =>
       match args_dict with
       | PDict [(key, v)] =>
           if String.eqb key "x" then
             match v with
             | PInt x =>
                 if 0 <? x then (Ok (PInt (2 * x)), S calls)
                 else (Raise (ModelRetry "x must be positive"), S calls)
             | _ => (Raise (ModelRetry "x must be an integer"), S calls)
             end
           else if String.eqb key "crash" then
             (Raise (OtherException "ValueError" "crash"), S calls)
           else (Ok PNone, S calls)
       | _ =>
           (Ok match ctx with
               | Some c =>
                   PList [PInt (RunContext.retry c);
                          PStr (RunContext.tool_name c);
                          PStr (RunContext.tool_call_id c)]
               | None => PNone
               end,
            S calls)
       end |}.

Definition demo_schema : FunctionSchema.t demo_world unit :=
  {| FunctionSchema.function := demo_function;
     FunctionSchema.description := Some "Double a positive number.";
     FunctionSchema.validator := demo_validator;
     FunctionSchema.json_schema := PDict [("type", PStr "object")];
     FunctionSchema.takes_ctx := true;
     FunctionSchema.is_async := false |}.

(** The tool named [n] with bound [m], after [c] recoverable failures. *)
Definition demo_tool (n : string) (m : option Z) (c : Z)
    : Tool demo_world unit :=
  {| function := demo_function;
     takes_ctx := true;
     max_retries := m;
     name := n;
     description := Some "Double a positive number.";
     prepare := None;
     docstring_format := auto;
     require_parameter_descriptions := false;
     strict := None;
     function_schema := demo_schema;
     current_retry := c |}.

Definition demo_store (n : string) (m : option Z) (c : Z)
    : Store demo_world unit :=
  {| self := demo_tool n m c; world := O |}.

Definition demo_message (a : tool_args) : ToolCallPart.t :=
  {| ToolCallPart.tool_name := "double";
     ToolCallPart.args := a;
     ToolCallPart.tool_call_id := "call_1" |}.

(** A base context whose own fields are all different from the call's. *)
Definition demo_context : RunContext.t unit :=
  {| RunContext.deps := tt;
     RunContext.retry := 7;
     RunContext.tool_name := "other_tool";
     RunContext.tool_call_id := "earlier_call" |}.

Definition malformed : tool_args := ArgsStr "oops".
Definition negative_x : tool_args := ArgsDict [("x", PInt (-1))].
Definition positive_x : tool_args := ArgsDict [("x", PInt 21)].
Definition crashing : tool_args := ArgsDict [("crash", PNone)].

(** The same callable registered through [from_schema], with stand-ins
    for the schema compiler (never consulted on this path), the
    coroutine test and the JSON decoder. *)
Definition demo_from_schema : Tool demo_world unit :=
  from_schema tt
    (fun _ (_ : unit) _ _ _ => demo_schema)
    (fun _ => false)
    (SchemaValidator.validate_json demo_validator)
    demo_function "double_raw" None (PDict [("type", PStr "object")]).

(* ================================================================== *)
(** ** Python dictionaries *)

(** An association list stands for a [dict]: the first entry of a key is
    the one a lookup sees. *)

(** [d.get(k)] *)
Fixpoint dict_get (k : string) (d : dict) : option pyval :=
  match d with
  | [] => None
  | (k', v) :: rest => if String.eqb k k' then Some v else dict_get k rest
  end.

(** [k in d] *)
Definition dict_contains (k : string) (d : dict) : bool :=
  match dict_get k d with
  | Some _ => true
  | None => false
  end.

(** [d[k] = v]: the entry of [k] gets the new value where it stands; a
    new key goes to the end. *)
Fixpoint dict_set (k : string) (v : pyval) (d : dict) : dict :=
  match d with
  | [] => [(k, v)]
  | (k', v') :: rest =>
      if String.eqb k k' then (k', v) :: rest
      else (k', v') :: dict_set k v rest
  end.

(** [d.pop(k, None)], as the dictionary it leaves. *)
Fixpoint dict_pop (k : string) (d : dict) : dict :=
  match d with
  | [] => []
  | (k', v') :: rest =>
      if String.eqb k k' then dict_pop k rest
      else (k', v') :: dict_pop k rest
  end.

(* ================================================================== *)
(** ** The class [GenerateToolJsonSchema] *)

Section GenerateToolJsonSchemaClass.

(** The two methods of pydantic's [GenerateJsonSchema] that the class
    overrides and calls through [super()]; the model takes a parent that
    returns. *)
Variable super_typed_dict_schema : dict -> dict.
Variable super_named_required_fields_schema :
  list (string * bool * pyval) -> dict.

(** [GenerateToolJsonSchema.typed_dict_schema] *)
Definition typed_dict_schema (schema : dict) : dict :=
  let s := super_typed_dict_schema schema in
  let total := dict_get "total" schema in
  if negb (dict_contains "additionalProperties" s)
     && (match total with Some (PBool true) => true | _ => false end
         || match total with None | Some PNone => true | _ => false end)
  then dict_set "additionalProperties" (PBool false) s
  else s.

(** The loop [for p in properties: properties[p].pop('title', None)] over
    the keys of a mapping.  [None]: the loop raises, because the value
    under [p] is not a mapping. *)
Fixpoint pop_titles (keys : list string) (properties : dict) : option dict :=
  match keys with
  | [] => Some properties
  | p :: rest =>
      match dict_get p properties with
      | Some (PDict d) =>
          pop_titles rest (dict_set p (PDict (dict_pop "title" d)) properties)
      | _ => None
      end
  end.

(** [GenerateToolJsonSchema._named_required_fields_schema].  [None]: the
    method raises ([TypeError], [AttributeError] or [IndexError]), which
    it does when the value under ['properties'] is not a mapping of
    mappings, an empty list or an empty string: a non-empty list or string
    cannot be indexed by its own elements down to mappings, and the other
    values cannot be iterated. *)
Definition _named_required_fields_schema
    (named_required_fields : list (string * bool * pyval)) : option dict :=
  let s := super_named_required_fields_schema named_required_fields in
  match dict_get "properties" s with
  | None => Some s
  | Some (PDict properties) =>
      match pop_titles (map fst properties) properties with
      | Some properties' => Some (dict_set "properties" (PDict properties') s)
      | None => None
      end
  | Some (PList []) => Some s
  | Some (PStr x) => if String.eqb x "" then Some s else None
  | Some _ => None
  end.

End GenerateToolJsonSchemaClass.

(** What the loop does to one property schema. *)
Definition without_title (v : pyval) : pyval :=
  match v with
  | PDict d => PDict (dict_pop "title" d)
  | _ => v
  end.

(* ================================================================== *)
(** ** [Tool.run] and the tracer *)

(** An OpenTelemetry span together with the context manager that
    [start_as_current_span] returns for it: the two methods [run] calls
    on the span, and the manager's exit, which is told the exception in
    flight (if any) and does not swallow it. *)
Module Span.
Record t (World : Type) : Type := {
  is_recording : World -> outcome bool * World;
  set_attribute : string -> string -> World -> outcome unit * World;
  __exit__ : option exn -> World -> outcome unit * World
}.
Arguments is_recording {World} _ _.
Arguments set_attribute {World} _ _ _ _.
Arguments __exit__ {World} _ _ _.
End Span.

Module Tracer.
Record t (World : Type) : Type := {
  start_as_current_span :
    string -> list (string * string) -> World ->
    outcome (Span.t World) * World
}.
Arguments start_as_current_span {World} _ _ _ _.
End Tracer.

Section Tracing.

Context {World : Type} {AgentDepsT : Type}.

Variable call :
  FunctionSchema.t World AgentDepsT -> pyval -> RunContext.t AgentDepsT ->
  World -> outcome pyval * World.

(** Methods of the message classes and [json.dumps], which [run] uses to
    render what it puts on the span. *)
Variable args_as_json_str : ToolCallPart.t -> string.
Variable model_response_str : ToolReturnPart.t -> string.
Variable model_response : RetryPromptPart.t -> string.
Variable json_dumps : pyval -> string.

Notation "x <- m ;; k" := (bind m (fun x => k))
  (at level 61, m at next level, right associativity).
Notation "m ;;; k" := (bind m (fun _ => k))
  (at level 61, right associativity).

(** The dictionary [span_attributes] of [run], in the order of its
    literal. *)
Definition span_attributes (this : Tool World AgentDepsT)
    (message : ToolCallPart.t) (include_content : bool)
    : list (string * string) :=
  [("gen_ai.tool.name", name this);
   ("gen_ai.tool.call.id", ToolCallPart.tool_call_id message)]
  ++ (if include_content
      then [("tool_arguments", args_as_json_str message)]
      else [])
  ++ [("logfire.msg", "running tool: " ++ name this);
      ("logfire.json_schema",
       json_dumps
         (PDict
            [("type", PStr "object");
             ("properties",
              PDict
                ((if include_content
                  then [("tool_arguments", PDict [("type", PStr "object")]);
                        ("tool_response", PDict [("type", PStr "object")])]
                  else [])
                 ++ [("gen_ai.tool.name", PDict []);
                     ("gen_ai.tool.call.id", PDict [])]))]))].

(** The body of a [with] block under the manager of [span]: the manager
    is exited on the way out, with the exception in flight if there is
    one; that exception goes on unless the exit itself raises. *)
Definition with_block {A : Type} (span : Span.t World)
    (body : M World AgentDepsT A) : M World AgentDepsT A :=
  fun s =>
    match body s with
    | (Ok a, s') =>
        match user_call (Span.__exit__ span None) s' with
        | (Ok _, s'') => (Ok a, s'')
        | (Raise e, s'') => (Raise e, s'')
        end
    | (Raise e, s') =>
        match user_call (Span.__exit__ span (Some e)) s' with
        | (Ok _, s'') => (Raise e, s'')
        | (Raise e', s'') => (Raise e', s'')
        end
    end.

(** [Tool.run] *)
Definition run (message : ToolCallPart.t)
    (run_context : RunContext.t AgentDepsT) (tracer : Tracer.t World)
    (include_content : bool) : M World AgentDepsT response :=
  this <- get_self ;;
  let span_attributes := span_attributes this message include_content in
  span <- user_call
            (Tracer.start_as_current_span tracer "running tool"
               span_attributes) ;;
  with_block span
    (response <- _run call message run_context ;;
     (if include_content
      then
        recording <- user_call (Span.is_recording span) ;;
        if recording : bool
        then
          user_call
            (Span.set_attribute span "tool_response"
               match response with
               | Returned p => model_response_str p
               | RetryPrompt p => model_response p
               end)
        else ret tt
      else ret tt) ;;;
     ret response).

(** *** Vocabulary for the statements about [run] *)

(** A span whose methods do not raise. *)
Definition quiet_span (span : Span.t World) : Prop :=
  (forall w, exists b, fst (Span.is_recording span w) = Ok b) /\
  (forall k v w, fst (Span.set_attribute span k v w) = Ok tt) /\
  (forall e w, fst (Span.__exit__ span e w) = Ok tt).

(** A tracer that always opens a span, and a quiet one. *)
Definition quiet_tracer (tracer : Tracer.t World) : Prop :=
  forall n a w,
    exists span,
      fst (Tracer.start_as_current_span tracer n a w) = Ok span /\
      quiet_span span.

(** The store in which [run] enters [_run]: the tool as it is, the world
    as opening the span left it. *)
Definition store_in_span (tracer : Tracer.t World)
    (message : ToolCallPart.t) (include_content : bool)
    (s : Store World AgentDepsT) : Store World AgentDepsT :=
  {| self := self s;
     world :=
       snd (Tracer.start_as_current_span tracer "running tool"
              (span_attributes (self s) message include_content)
              (world s)) |}.

(** A caller that runs one call after the other through [run]. *)
Fixpoint run_all_traced (tracer : Tracer.t World) (include_content : bool)
    (calls : list (ToolCallPart.t * RunContext.t AgentDepsT))
    (s : Store World AgentDepsT)
    : list (outcome response) * Store World AgentDepsT :=
  match calls with
  | [] => ([], s)
  | (message, run_context) :: rest =>
      let (r, s') := run message run_context tracer include_content s in
      let (rs, s'') := run_all_traced tracer include_content rest s' in
      (r :: rs, s'')
  end.

(** Every attempt of such a run is a recoverable failure. *)
Fixpoint all_recoverable_traced (tracer : Tracer.t World)
    (include_content : bool)
    (calls : list (ToolCallPart.t * RunContext.t AgentDepsT))
    (s : Store World AgentDepsT) : Prop :=
  match calls with
  | [] => True
  | (message, run_context) :: rest =>
      is_recoverable
        (attempt call (store_in_span tracer message include_content s)
           message run_context) = true /\
      all_recoverable_traced tracer include_content rest
        (snd (run message run_context tracer include_content s))
  end.

(** The same span with other methods for reading and writing it. *)
Definition with_span_methods
    (is_recording : World -> outcome bool * World)
    (set_attribute : string -> string -> World -> outcome unit * World)
    (span : Span.t World) : Span.t World :=
  {| Span.is_recording := is_recording;
     Span.set_attribute := set_attribute;
     Span.__exit__ := Span.__exit__ span |}.

(** The same tracer handing out changed spans. *)
Definition map_spans (f : Span.t World -> Span.t World)
    (tracer : Tracer.t World) : Tracer.t World :=
  {| Tracer.start_as_current_span := fun n a w =>
       match Tracer.start_as_current_span tracer n a w with
       | (Ok span, w') => (Ok (f span), w')
       | (Raise e, w') => (Raise e, w')
       end |}.

End Tracing.

(** [message] with other arguments. *)
Definition with_args (a : tool_args) (message : ToolCallPart.t)
    : ToolCallPart.t :=
  {| ToolCallPart.tool_name := ToolCallPart.tool_name message;
     ToolCallPart.args := a;
     ToolCallPart.tool_call_id := ToolCallPart.tool_call_id message |}.

(** *** A concrete tracer *)

(** Its spans record; every operation on them leaves a mark on the
    world: opening adds 100, writing an attribute 10, closing 1000. *)
Definition demo_span : Span.t demo_world :=
  {| Span.is_recording := fun w => (Ok true, w);
     Span.set_attribute := fun _ _ w => (Ok tt, (w + 10)%nat);
     Span.__exit__ := fun _ w => (Ok tt, (w + 1000)%nat) |}.

Definition demo_tracer : Tracer.t demo_world :=
  {| Tracer.start_as_current_span := fun _ _ w =>
       (Ok demo_span, (w + 100)%nat) |}.

Definition demo_run (message : ToolCallPart.t)
    (run_context : RunContext.t unit) (include_content : bool)
    : M demo_world unit response :=
  run FunctionSchema_call
    (fun _ => "<arguments>") (fun _ => "<return>") (fun _ => "<retry>")
    (fun _ => "<schema>")
    message run_context demo_tracer include_content.

(** A tracer that cannot open a span, and one whose spans cannot be
    written. *)
Definition demo_closed_tracer : Tracer.t demo_world :=
  {| Tracer.start_as_current_span := fun _ _ w =>
       (Raise (OtherException "RuntimeError" "tracer is shut down"),
        (w + 100)%nat) |}.

Definition demo_readonly_span : Span.t demo_world :=
  {| Span.is_recording := fun w => (Ok true, w);
     Span.set_attribute := fun _ _ w =>
       (Raise (OtherException "RuntimeError" "span is read-only"),
        (w + 10)%nat);
     Span.__exit__ := fun _ w => (Ok tt, (w + 1000)%nat) |}.

Definition demo_readonly_tracer : Tracer.t demo_world :=
  {| Tracer.start_as_current_span := fun _ _ w =>
       (Ok demo_readonly_span, (w + 100)%nat) |}.

(** Stand-ins for the parent class of the schema generator: a typed dict
    of one field [x], and an object schema with a titled property [x]. *)
Definition demo_super_typed_dict_schema (schema : dict) : dict :=
  [("type", PStr "object");
   ("properties", PDict [("x", PDict [("type", PStr "integer")])])].

Definition demo_super_named_required_fields_schema
    (fields : list (string * bool * pyval)) : dict :=
  [("type", PStr "object");
   ("title", PStr "double");
   ("properties",
    PDict [("x", PDict [("title", PStr "X"); ("type", PStr "integer")])]);
   ("required", PList [PStr "x"])].

(** A tool whose validator runs a check of the user's that asks for a
    retry, by raising [ModelRetry], when it is given no arguments. *)
Definition demo_picky_validator : SchemaValidator.t :=
  {| SchemaValidator.validate_json :=
       SchemaValidator.validate_json demo_validator;
     SchemaValidator.validate_python := fun v =>
       match v with
       | PDict [] => Raise (ModelRetry "give me arguments")
       | _ => SchemaValidator.validate_python demo_validator v
       end |}.

Definition demo_picky_store : Store demo_world unit :=
  {| self :=
       {| function := demo_function;
          takes_ctx := true;
          max_retries := Some 3;
          name := "double";
          description := None;
          prepare := None;
          docstring_format := auto;
          require_parameter_descriptions := false;
          strict := None;
          function_schema :=
            {| FunctionSchema.function := demo_function;
               FunctionSchema.description := None;
               FunctionSchema.validator := demo_picky_validator;
               FunctionSchema.json_schema := PDict [("type", PStr "object")];
               FunctionSchema.takes_ctx := true;
               FunctionSchema.is_async := false |};
          current_retry := 1 |};
     world := O |}.

(* ================================================================== *)
(** ** How [_on_error] and [_run] compute *)

Section Properties.

Context {World : Type} {AgentDepsT : Type}.

Variable call :
  FunctionSchema.t World AgentDepsT -> pyval -> RunContext.t AgentDepsT ->
  World -> outcome pyval * World.

Implicit Types (s : Store World AgentDepsT) (message : ToolCallPart.t)
  (run_context : RunContext.t AgentDepsT) (exc : recoverable).

Lemma or_empty_dict_Some (d : dict) : or_empty_dict (Some d) = d.
Proof. destruct d; reflexivity. Qed.

Lemma or_empty_object_eq (x : string) :
  or_empty_object x = if String.eqb x "" then "{}"%string else x.
Proof. reflexivity. Qed.

(** [_on_error] always counts the failure; it raises when the count has
    gone past the bound or there is no bound, and builds the prompt
    otherwise. *)
Lemma _on_error_eq exc message s :
  _on_error exc message s =
  (if exhausted (self s)
   then Raise (UnexpectedModelBehavior (exceeded_text (max_retries (self s)))
                 (Some (exn_of exc)))
   else Ok {| RetryPromptPart.tool_name := ToolCallPart.tool_name message;
              RetryPromptPart.content := retry_content_of exc;
              RetryPromptPart.tool_call_id :=
                ToolCallPart.tool_call_id message |},
   {| self := with_current_retry (current_retry (self s) + 1) (self s);
      world := world s |}).
Proof.
  unfold _on_error, exhausted, bind, get_self, set_current_retry, raise, ret.
  cbn [self world with_current_retry max_retries current_retry].
  destruct (max_retries (self s)) as [m|]; [|reflexivity].
  destruct (current_retry (self s) + 1 >? m); destruct exc; reflexivity.
Qed.

Lemma retry_prompt_or_raise_eq exc message s :
  retry_prompt_or_raise exc message s =
  (if exhausted (self s)
   then Raise (UnexpectedModelBehavior (exceeded_text (max_retries (self s)))
                 (Some (exn_of exc)))
   else Ok (RetryPrompt
              {| RetryPromptPart.tool_name := ToolCallPart.tool_name message;
                 RetryPromptPart.content := retry_content_of exc;
                 RetryPromptPart.tool_call_id :=
                   ToolCallPart.tool_call_id message |}),
   {| self := with_current_retry (current_retry (self s) + 1) (self s);
      world := world s |}).
Proof.
  unfold retry_prompt_or_raise, bind. rewrite _on_error_eq.
  destruct (exhausted (self s)); reflexivity.
Qed.

(** [_run] is: validate, then go on from the validator's verdict. *)
Lemma _run_eq message run_context s :
  _run call message run_context s =
  after_validation call message run_context s (validate_args (self s) message).
Proof.
  unfold _run, validate_args, after_validation.
  unfold bind at 1. unfold try_except at 1.
  unfold bind at 1. unfold get_self at 1. cbn iota beta.
  destruct (ToolCallPart.args message) as [x|d|];
    rewrite ?or_empty_dict_Some, ?or_empty_object_eq;
    cbn [or_empty_dict];
    unfold bind at 1; unfold pure_call at 1;
    match goal with
    | |- context [SchemaValidator.validate_json ?v ?a] =>
        destruct (SchemaValidator.validate_json v a) as [args_dict|e]
    | |- context [SchemaValidator.validate_python ?v ?a] =>
        destruct (SchemaValidator.validate_python v a) as [args_dict|e]
    end.
  all: cbn iota beta.
  all: try (destruct e; try reflexivity;
            unfold retry_prompt_or_raise, bind, ret;
            destruct (_on_error _ _ _) as [[p|e'] s']; reflexivity).
  all: unfold ret at 1; cbn iota beta;
    unfold bind at 1; unfold get_self at 1; cbn iota beta;
    cbn [self world];
    unfold bind at 1; unfold try_except at 1; unfold bind at 1;
    unfold user_call at 1; unfold after_call;
    change (RunContext.replace run_context (current_retry (self s))
              (ToolCallPart.tool_name message)
              (ToolCallPart.tool_call_id message))
      with (derived_context (self s) message run_context);
    destruct (call (function_schema (self s)) args_dict
                (derived_context (self s) message run_context) (world s))
      as [[c|e] w]; cbn [fst snd];
    [ reflexivity
    | destruct e; try reflexivity;
      unfold retry_prompt_or_raise, bind, ret;
      destruct (_on_error _ _ _) as [[p|e'] s']; reflexivity ].
Qed.

(** A recoverable failure always ends in the retry governor, with the
    tool as it was and the world as the callable left it. *)
Lemma recoverable_failure_run message run_context s :
  is_recoverable (attempt call s message run_context) = true ->
  exists exc w,
    _run call message run_context s =
    retry_prompt_or_raise exc message {| self := self s; world := w |}.
Proof.
  unfold attempt. rewrite _run_eq. unfold after_validation.
  destruct (validate_args (self s) message) as [args_dict|e].
  - unfold after_call.
    destruct (call _ _ _ _) as [[c|e] w]; cbn [fst snd];
      [discriminate|].
    destruct e as [le|m|m cause|cls text]; try discriminate. intros _.
    exists (RModelRetry m), w. reflexivity.
  - destruct e as [le|m|m cause|cls text]; try discriminate. intros _.
    exists (RValidationError le), (world s).
    destruct s; reflexivity.
Qed.

(** One recoverable failure: the counter goes up by one, and the answer is
    a Retry Prompt unless the tool was already at its bound. *)
Lemma recoverable_failure_step message run_context s :
  is_recoverable (attempt call s message run_context) = true ->
  exists exc w,
    _run call message run_context s =
    (if exhausted (self s)
     then Raise (UnexpectedModelBehavior
                   (exceeded_text (max_retries (self s)))
                   (Some (exn_of exc)))
     else Ok (RetryPrompt
                {| RetryPromptPart.tool_name :=
                     ToolCallPart.tool_name message;
                   RetryPromptPart.content := retry_content_of exc;
                   RetryPromptPart.tool_call_id :=
                     ToolCallPart.tool_call_id message |}),
     {| self := with_current_retry (current_retry (self s) + 1) (self s);
        world := w |}).
Proof.
  intros H. destruct (recoverable_failure_run _ _ _ H) as (exc & w & E).
  exists exc, w. rewrite E, retry_prompt_or_raise_eq. reflexivity.
Qed.

Lemma exhausted_Some (this : Tool World AgentDepsT) (k : Z) :
  max_retries this = Some k ->
  exhausted this = (current_retry this + 1 >? k).
Proof. unfold exhausted. intros ->. reflexivity. Qed.

Lemma run_all_length calls s :
  length (fst (run_all call calls s)) = length calls.
Proof.
  revert s. induction calls as [|[message run_context] rest IH]; intros s.
  - reflexivity.
  - cbn [run_all]. destruct (_run call message run_context s) as [r s'].
    specialize (IH s'). destruct (run_all call rest s') as [rs s''].
    cbn [fst length] in *. now rewrite IH.
Qed.

(** The run of recoverable failures from any value [j] of the counter:
    failure number [i] (from 0) is answered by a Retry Prompt while
    [j + i < k], and by the fatal error from then on. *)
Lemma retry_bound_from (k : Z) calls :
  forall s,
    max_retries (self s) = Some k ->
    all_recoverable call calls s ->
    forall (i : nat) (r : outcome response),
      nth_error (fst (run_all call calls s)) i = Some r ->
      (current_retry (self s) + Z.of_nat i < k ->
       exists p, r = Ok (RetryPrompt p)) /\
      (k <= current_retry (self s) + Z.of_nat i ->
       exists cause,
         r = Raise (UnexpectedModelBehavior (exceeded_text (Some k))
                      (Some cause))).
Proof.
  induction calls as [|[message run_context] rest IH]; intros s Hk Hall i r Hi.
  - destruct i; discriminate.
  - cbn [all_recoverable] in Hall. destruct Hall as [Hrec Hrest].
    cbn [run_all] in Hi.
    destruct (recoverable_failure_step _ _ _ Hrec) as (exc & w & E).
    rewrite E in Hi, Hrest. cbn [snd] in Hrest.
    match type of Hrest with
    | all_recoverable _ _ ?s1 => specialize (IH s1 Hk Hrest)
    end.
    destruct (run_all call rest _) as [rs s''] eqn:Erest.
    cbn [fst] in Hi, IH.
    destruct i as [|i]; cbn [nth_error] in Hi.
    + injection Hi as <-. rewrite (exhausted_Some _ _ Hk), Hk.
      split; intros Hlt.
      * destruct (current_retry (self s) + 1 >? k) eqn:Egt; [lia|eauto].
      * destruct (current_retry (self s) + 1 >? k) eqn:Egt; [eauto|lia].
    + specialize (IH i r Hi).
      cbn [self current_retry with_current_retry] in IH.
      destruct IH as [IHlt IHge]. split; intros Hlt.
      * apply IHlt. lia.
      * apply IHge. lia.
Qed.

(* ================================================================== *)
(** ** The retry bound *)

(** C1.  For a tool with [max_retries = k] whose counter is at 0, in any
    run of calls that are all recoverable failures (the validator raises
    [ValidationError], or the callable raises [ModelRetry]), every call
    has an outcome, each of the first [k] is answered by a Retry Prompt,
    and the [(k+1)]-th raises the fatal error
    'Tool exceeded max retries count of k' instead. *)
Theorem retry_bound (k : Z) (calls : list (ToolCallPart.t * RunContext.t AgentDepsT)) s :
  max_retries (self s) = Some k ->
  current_retry (self s) = 0 ->
  all_recoverable call calls s ->
  length (fst (run_all call calls s)) = length calls /\
  forall (i : nat) (r : outcome response),
    nth_error (fst (run_all call calls s)) i = Some r ->
    (Z.of_nat i < k -> exists p, r = Ok (RetryPrompt p)) /\
    (Z.of_nat i = k ->
     exists cause,
       r = Raise (UnexpectedModelBehavior
                    ("Tool exceeded max retries count of " ++ str_int k)
                    (Some cause))).
Proof.
  intros Hk H0 Hall. split; [apply run_all_length|].
  intros i r Hi.
  destruct (retry_bound_from k calls s Hk Hall i r Hi) as [Hlt Hge].
  rewrite H0 in Hlt, Hge. split; intros H.
  - apply Hlt. lia.
  - apply Hge. lia.
Qed.

(* ================================================================== *)
(** ** Success resets the counter *)

(** C2.  Whatever the counter is (so also after [j] failures with
    [0 <= j < max_retries]), an invocation that validates and whose
    callable returns answers with a Return and leaves the counter at 0;
    a recoverable failure on the following call is then counted as the
    first one: with [max_retries = k >= 1] it is answered by a Retry
    Prompt and the counter is 1. *)
Theorem reset_on_success message run_context s
    (args_dict c : pyval) (w : World) :
  validate_args (self s) message = Ok args_dict ->
  call (function_schema (self s)) args_dict
    (derived_context (self s) message run_context) (world s) = (Ok c, w) ->
  exists s',
    _run call message run_context s =
    (Ok (Returned
           {| ToolReturnPart.tool_name := ToolCallPart.tool_name message;
              ToolReturnPart.content := c;
              ToolReturnPart.tool_call_id :=
                ToolCallPart.tool_call_id message |}), s') /\
    current_retry (self s') = 0 /\
    max_retries (self s') = max_retries (self s) /\
    forall (k : Z) message2 run_context2,
      max_retries (self s) = Some k ->
      1 <= k ->
      is_recoverable (attempt call s' message2 run_context2) = true ->
      exists p s'',
        _run call message2 run_context2 s' = (Ok (RetryPrompt p), s'') /\
        current_retry (self s'') = 1.
Proof.
  intros Hv Hc.
  exists {| self := with_current_retry 0 (self s); world := w |}.
  split; [|split; [reflexivity|split; [reflexivity|]]].
  - rewrite _run_eq, Hv. unfold after_validation, after_call.
    rewrite Hc. reflexivity.
  - intros k message2 run_context2 Hk Hk1 Hrec.
    destruct (recoverable_failure_step _ _ _ Hrec) as (exc & w2 & E).
    rewrite E. unfold exhausted.
    cbn [self with_current_retry max_retries current_retry].
    rewrite Hk. destruct (0 + 1 >? k) eqn:Egt; [lia|].
    eexists _, _. split; reflexivity.
Qed.

(* ================================================================== *)
(** ** Which failures become Retry Prompts *)


(** C9.  When decoding goes through and the callable raises an exception
    other than [ModelRetry], the attempt leaves the tool, hence
    [current_retry], as it found it; a recoverable failure on a later
    call moves the counter to the value before the attempt plus one. *)
Theorem other_exception_keeps_counter message run_context s
    (args_dict : pyval) (e : exn) (w : World) :
  validate_args (self s) message = Ok args_dict ->
  call (function_schema (self s)) args_dict
    (derived_context (self s) message run_context) (world s) = (Raise e, w) ->
  (forall m, e <> ModelRetry m) ->
  let s' := snd (_run call message run_context s) in
  fst (_run call message run_context s) = Raise e /\
  current_retry (self s') = current_retry (self s) /\
  self s' = self s /\
  forall message2 run_context2,
    is_recoverable (attempt call s' message2 run_context2) = true ->
    current_retry (self (snd (_run call message2 run_context2 s')))
    = current_retry (self s) + 1.
Proof.
  intros Hv Hc Hne s'.
  assert (E : _run call message run_context s =
              (Raise e, {| self := self s; world := w |})).
  { rewrite _run_eq, Hv. unfold after_validation, after_call.
    rewrite Hc. cbn [fst snd].
    destruct e as [le|m|m cause|cls text]; try reflexivity.
    exfalso. apply (Hne m). reflexivity. }
  subst s'. rewrite E. cbn [fst snd self].
  repeat split.
  intros message2 run_context2 Hrec.
  destruct (recoverable_failure_step _ _ _ Hrec) as (exc & w2 & E2).
  rewrite E2. reflexivity.
Qed.

(* ================================================================== *)
(** ** A tool without a bound of its own *)

Lemma attempt_with_max_retries (d : option Z) message run_context s :
  attempt call {| self := with_max_retries d (self s); world := world s |}
    message run_context
  = attempt call s message run_context.
Proof. reflexivity. Qed.

(** C4, amended.  [_run] and [_on_error] take no default: while the tool's
    [max_retries] is [None], every recoverable failure is counted and
    raises the fatal error at once.  A caller's default counts only once
    it has been written into [max_retries]; with a default [d >= 1] in
    place and the counter at 0, the first recoverable failure is answered
    by a Retry Prompt. *)
Theorem unset_bound_is_fatal message run_context s :
  max_retries (self s) = None ->
  is_recoverable (attempt call s message run_context) = true ->
  (exists cause s',
     _run call message run_context s =
     (Raise (UnexpectedModelBehavior
               "Tool exceeded max retries count of None" (Some cause)), s') /\
     current_retry (self s') = current_retry (self s) + 1) /\
  (forall d : Z,
     1 <= d ->
     current_retry (self s) = 0 ->
     exists p s',
       _run call message run_context
         {| self := with_max_retries (Some d) (self s); world := world s |}
       = (Ok (RetryPrompt p), s')).
Proof.
  intros Hnone Hrec. split.
  - destruct (recoverable_failure_step _ _ _ Hrec) as (exc & w & E).
    rewrite E. unfold exhausted. rewrite Hnone.
    eexists _, _. split; reflexivity.
  - intros d Hd H0.
    rewrite <- (attempt_with_max_retries (Some d)) in Hrec.
    destruct (recoverable_failure_step _ _ _ Hrec) as (exc & w & E).
    rewrite E. unfold exhausted.
    cbn [self with_max_retries max_retries current_retry].
    rewrite H0. destruct (0 + 1 >? d) eqn:Egt; [lia|].
    eexists _, _. reflexivity.
Qed.

(* ================================================================== *)
(** ** What the fatal error reports *)

Lemma strip_prefix_app (p x : string) : strip_prefix p (p ++ x) = Some x.
Proof.
  induction p as [|a p IH]; cbn [strip_prefix String.append].
  - reflexivity.
  - rewrite Ascii.eqb_refl. exact IH.
Qed.

Lemma int_of_string_str_int (k : Z) :
  NilZero.int_of_string (str_int k) = Some (Z.to_int k).
Proof.
  unfold str_int. apply NilZero.isi.
  - destruct k; cbn [Z.to_int]; try discriminate.
    intros H. injection H as H. exact (Unsigned.to_uint_nonnil _ H).
  - destruct k; cbn [Z.to_int]; try discriminate.
    intros H. injection H as H. exact (Unsigned.to_uint_nonnil _ H).
Qed.

Lemma reported_bound_exceeded (k : Z) (cause : option exn) :
  reported_bound (UnexpectedModelBehavior (exceeded_text (Some k)) cause)
  = Some k.
Proof.
  unfold reported_bound, exceeded_text.
  rewrite strip_prefix_app. cbn [format_optional_int].
  rewrite int_of_string_str_int. cbn [option_map].
  now rewrite DecimalZ.of_to.
Qed.

Lemma attempt_with_name (n : string) message run_context s :
  attempt call {| self := with_name n (self s); world := world s |}
    message run_context
  = attempt call s message run_context.
Proof. reflexivity. Qed.

Lemma _run_with_name (n : string) message run_context s :
  fst (_run call message run_context
         {| self := with_name n (self s); world := world s |})
  = fst (_run call message run_context s).
Proof.
  rewrite !_run_eq. unfold after_validation.
  change (validate_args (self {| self := with_name n (self s);
                                 world := world s |}) message)
    with (validate_args (self s) message).
  destruct (validate_args (self s) message) as [args_dict|e].
  - unfold after_call. cbn [self world].
    change (function_schema (with_name n (self s)))
      with (function_schema (self s)).
    change (derived_context (with_name n (self s)) message run_context)
      with (derived_context (self s) message run_context).
    destruct (call _ _ _ _) as [[c|e] w]; cbn [fst snd]; [reflexivity|].
    destruct e; try reflexivity.
    rewrite !retry_prompt_or_raise_eq. reflexivity.
  - destruct e; try reflexivity.
    rewrite !retry_prompt_or_raise_eq. reflexivity.
Qed.

(** C5, amended.  The fatal error raised when a recoverable failure takes
    the counter past the bound is [UnexpectedModelBehavior] with the text
    'Tool exceeded max retries count of <max_retries>' and the failure
    itself as its cause: the very [ValidationError] the validator raised,
    or the very [ModelRetry] the callable raised.  The configured bound
    can be read back from it, and nothing in it depends on the tool's
    name. *)
Theorem exhaustion_error_reports_bound message run_context s :
  is_recoverable (attempt call s message run_context) = true ->
  exhausted (self s) = true ->
  exists (cause : exn) (s' : Store World AgentDepsT),
    let fatal :=
      UnexpectedModelBehavior
        ("Tool exceeded max retries count of "
           ++ format_optional_int (max_retries (self s)))
        (Some cause) in
    _run call message run_context s = (Raise fatal, s') /\
    ((exists line_errors,
        validate_args (self s) message = Raise (ValidationError line_errors)
        /\ cause = ValidationError line_errors)
     \/
     (exists args_dict m w,
        validate_args (self s) message = Ok args_dict /\
        call (function_schema (self s)) args_dict
          (derived_context (self s) message run_context) (world s)
        = (Raise (ModelRetry m), w) /\
        cause = ModelRetry m)) /\
    (forall k, max_retries (self s) = Some k -> reported_bound fatal = Some k) /\
    (forall n : string,
       fst (_run call message run_context
              {| self := with_name n (self s); world := world s |})
       = Raise fatal).
Proof.
  intros Hrec Hex. unfold attempt in Hrec.
  pose proof (_run_eq message run_context s) as E.
  unfold after_validation in E.
  destruct (validate_args (self s) message) as [args_dict|e] eqn:Ev.
  - unfold after_call in E.
    destruct (call (function_schema (self s)) args_dict
                (derived_context (self s) message run_context) (world s))
      as [[c|e] w] eqn:Ec; cbn [fst snd] in E; [discriminate Hrec|].
    destruct e as [le|m|m cause|cls text]; try discriminate Hrec.
    rewrite retry_prompt_or_raise_eq in E. cbn [self world] in E.
    rewrite Hex in E.
    exists (ModelRetry m). eexists. cbn zeta.
    split; [exact E|split; [|split]].
    + right. exists args_dict, m, w.
      split; [reflexivity|split; [first [exact Ec|reflexivity]|reflexivity]].
    + intros k Hk. rewrite Hk. apply reported_bound_exceeded.
    + intros n. rewrite _run_with_name, E. reflexivity.
  - destruct e as [le|m|m cause|cls text]; try discriminate Hrec.
    rewrite retry_prompt_or_raise_eq in E. rewrite Hex in E.
    exists (ValidationError le). eexists. cbn zeta.
    split; [exact E|split; [|split]].
    + left. exists le. split; reflexivity.
    + intros k Hk. rewrite Hk. apply reported_bound_exceeded.
    + intros n. rewrite _run_with_name, E. reflexivity.
Qed.

(* ================================================================== *)
(** ** Decoding the arguments *)

(** C7.  Textual arguments go through [validate_json], the empty string
    as the text of the empty object; structured arguments go through
    [validate_python] as they are, absent ones as the empty mapping.  In
    particular, with empty-string arguments and a validator that takes
    the empty object to an empty parameter set, no error is raised by
    decoding and the callable is invoked on the empty parameter set. *)
Theorem argument_decoding message run_context s :
  let validator := FunctionSchema.validator (function_schema (self s)) in
  (forall x : string,
     ToolCallPart.args message = ArgsStr x -> x <> ""%string ->
     _run call message run_context s =
     after_validation call message run_context s
       (SchemaValidator.validate_json validator x)) /\
  (ToolCallPart.args message = ArgsStr "" ->
   _run call message run_context s =
   after_validation call message run_context s
     (SchemaValidator.validate_json validator "{}")) /\
  (forall d : dict,
     ToolCallPart.args message = ArgsDict d ->
     _run call message run_context s =
     after_validation call message run_context s
       (SchemaValidator.validate_python validator (PDict d))) /\
  (ToolCallPart.args message = ArgsNone ->
   _run call message run_context s =
   after_validation call message run_context s
     (SchemaValidator.validate_python validator (PDict []))) /\
  (ToolCallPart.args message = ArgsStr "" ->
   SchemaValidator.validate_json validator "{}" = Ok (PDict []) ->
   _run call message run_context s =
   after_call message s
     (call (function_schema (self s)) (PDict [])
        (derived_context (self s) message run_context) (world s))).
Proof.
  intros validator. subst validator.
  repeat split.
  - intros x Hx Hne. rewrite _run_eq. unfold validate_args. rewrite Hx.
    apply String.eqb_neq in Hne. rewrite Hne. reflexivity.
  - intros Hx. rewrite _run_eq. unfold validate_args. rewrite Hx.
    reflexivity.
  - intros d Hd. rewrite _run_eq. unfold validate_args. rewrite Hd.
    reflexivity.
  - intros Hn. rewrite _run_eq. unfold validate_args. rewrite Hn.
    reflexivity.
  - intros Hx Hv. rewrite _run_eq. unfold validate_args. rewrite Hx.
    cbn [String.eqb]. rewrite Hv. reflexivity.
Qed.

(* ================================================================== *)
(** ** The content of a Retry Prompt *)

Lemma errors_stripped (line_errors : list ErrorDetails) :
  Forall2 (fun d d' =>
             ed_type d' = ed_type d /\ ed_loc d' = ed_loc d /\
             ed_msg d' = ed_msg d /\ ed_input d' = ed_input d /\
             ed_ctx d' = None /\ ed_url d' = None)
          line_errors (errors line_errors false false).
Proof.
  induction line_errors as [|d rest IH]; cbn [errors map].
  - constructor.
  - constructor; [repeat split|exact IH].
Qed.

(** C8.  Every Retry Prompt that [_run] returns carries the tool name and
    the call identifier of the call message.  Its content is, after a
    [ValidationError] of the validator, the list of its field errors, one
    for one, each with its type, location, message and input and without
    the [url] and [ctx] entries; after a [ModelRetry] of the callable, it
    is exactly the message of that [ModelRetry]. *)
Theorem retry_prompt_content message run_context s
    (p : RetryPromptPart.t) (s' : Store World AgentDepsT) :
  _run call message run_context s = (Ok (RetryPrompt p), s') ->
  RetryPromptPart.tool_name p = ToolCallPart.tool_name message /\
  RetryPromptPart.tool_call_id p = ToolCallPart.tool_call_id message /\
  ((exists line_errors details,
      validate_args (self s) message = Raise (ValidationError line_errors) /\
      RetryPromptPart.content p = ErrorList details /\
      details = errors line_errors false false /\
      Forall2 (fun d d' =>
                 ed_type d' = ed_type d /\ ed_loc d' = ed_loc d /\
                 ed_msg d' = ed_msg d /\ ed_input d' = ed_input d /\
                 ed_ctx d' = None /\ ed_url d' = None)
              line_errors details)
   \/
   (exists args_dict m w,
      validate_args (self s) message = Ok args_dict /\
      call (function_schema (self s)) args_dict
        (derived_context (self s) message run_context) (world s)
      = (Raise (ModelRetry m), w) /\
      RetryPromptPart.content p = ErrorText m)).
Proof.
  rewrite _run_eq. unfold after_validation.
  destruct (validate_args (self s) message) as [args_dict|e].
  - unfold after_call.
    destruct (call _ _ _ _) as [[c|e] w] eqn:Ec; cbn [fst snd].
    + discriminate.
    + destruct e as [le|m|m cause|cls text]; try discriminate.
      rewrite retry_prompt_or_raise_eq.
      destruct (exhausted _); [discriminate|].
      intros H. injection H as <- <-.
      split; [reflexivity|split; [reflexivity|]].
      right. exists args_dict, m, w.
      split; [reflexivity|split; [assumption|reflexivity]].
  - destruct e as [le|m|m cause|cls text]; try discriminate.
    rewrite retry_prompt_or_raise_eq.
    destruct (exhausted _); [discriminate|].
    intros H. injection H as <- <-.
    split; [reflexivity|split; [reflexivity|]].
    left. exists le, (errors le false false).
    split; [reflexivity|split; [reflexivity|split; [reflexivity|]]].
    apply errors_stripped.
Qed.

End Properties.

(* ================================================================== *)
(** ** The context handed to the callable *)

(** C6.  For a tool whose callable is declared as taking the context,
    once the arguments validate, the callable is applied to a first
    argument whose [retry] is the tool's counter as it is on entry to
    [_run] (before any increment of this attempt), whose [tool_name] and
    [tool_call_id] are those of the call message, and which takes from the
    base context nothing but [deps]; [_run] then goes on from the
    callable's outcome. *)
Theorem context_derivation {World AgentDepsT : Type}
    (message : ToolCallPart.t) (run_context : RunContext.t AgentDepsT)
    (s : Store World AgentDepsT) (args_dict : pyval) :
  FunctionSchema.takes_ctx (function_schema (self s)) = true ->
  validate_args (self s) message = Ok args_dict ->
  let ctx :=
    {| RunContext.deps := RunContext.deps run_context;
       RunContext.retry := current_retry (self s);
       RunContext.tool_name := ToolCallPart.tool_name message;
       RunContext.tool_call_id := ToolCallPart.tool_call_id message |} in
  _run FunctionSchema_call message run_context s =
  after_call message s
    (Callable.apply (FunctionSchema.function (function_schema (self s)))
       (Some ctx) args_dict (world s)).
Proof.
  intros Hctx Hv ctx. rewrite _run_eq, Hv.
  unfold after_validation, FunctionSchema_call. rewrite Hctx.
  reflexivity.
Qed.

(* ================================================================== *)
(** ** Tools built by [from_schema] *)

Section FromSchema.

Context {World : Type} {AgentDepsT : Type} {GenerateJsonSchema : Type}.

Variable GenerateToolJsonSchema : GenerateJsonSchema.
Variable function_schema_of :
  Callable.t World AgentDepsT -> GenerateJsonSchema -> option bool ->
  DocstringFormat -> bool -> FunctionSchema.t World AgentDepsT.
Variable is_async_callable : Callable.t World AgentDepsT -> bool.
Variable from_json : string -> outcome pyval.
Variable call :
  FunctionSchema.t World AgentDepsT -> pyval -> RunContext.t AgentDepsT ->
  World -> outcome pyval * World.

(** C10.  A tool built by [from_schema] has [takes_ctx = False], and its
    validator gives back any Python value as it is.  Whatever bound the
    caller has set and wherever the counter stands, structured arguments
    (a mapping, or none, which counts as the empty mapping) reach
    [FunctionSchema.call] unchanged, and through it the function, which
    gets no context; a Retry Prompt for such a call never carries a list
    of field errors: it can only carry the text of a [ModelRetry]. *)
Theorem from_schema_skips_validation
    (function : Callable.t World AgentDepsT) (name : string)
    (description : option string) (json_schema : pyval) :
  let t := from_schema GenerateToolJsonSchema function_schema_of
             is_async_callable from_json function name description
             json_schema in
  takes_ctx t = false /\
  FunctionSchema.takes_ctx (function_schema t) = false /\
  (forall v : pyval,
     SchemaValidator.validate_python
       (FunctionSchema.validator (function_schema t)) v = Ok v) /\
  forall (m : option Z) (c : Z) (w : World)
         (message : ToolCallPart.t) (run_context : RunContext.t AgentDepsT)
         (d : dict),
    let s := {| self := with_current_retry c (with_max_retries m t);
                world := w |} in
    ToolCallPart.args message = ArgsDict d \/
    (ToolCallPart.args message = ArgsNone /\ d = []) ->
    _run call message run_context s =
    after_call message s
      (call (function_schema t) (PDict d)
         (derived_context (self s) message run_context) w) /\
    _run FunctionSchema_call message run_context s =
    after_call message s (Callable.apply function None (PDict d) w) /\
    forall p s',
      _run call message run_context s = (Ok (RetryPrompt p), s') ->
      exists text, RetryPromptPart.content p = ErrorText text.
Proof.
  intros t. split; [reflexivity|split; [reflexivity|split; [reflexivity|]]].
  intros m c w message run_context d s Hargs.
  assert (Hv : validate_args (self s) message = Ok (PDict d)).
  { unfold validate_args. destruct Hargs as [->|[-> ->]]; reflexivity. }
  split; [|split].
  - rewrite _run_eq, Hv. reflexivity.
  - rewrite _run_eq, Hv. reflexivity.
  - intros p s'. rewrite _run_eq, Hv. unfold after_validation, after_call.
    destruct (call _ _ _ _) as [[r|e] w']; cbn [fst snd].
    + discriminate.
    + destruct e as [le|text|text cause|cls text]; try discriminate.
      rewrite retry_prompt_or_raise_eq.
      destruct (exhausted _); [discriminate|].
      intros H. injection H as <- <-. exists text. reflexivity.
Qed.

End FromSchema.

(* ================================================================== *)
(** ** The theorems at work on the concrete tool *)

(** Two failures against a bound of 1: a Retry Prompt, then the fatal
    error. *)
Lemma retry_bound_witness :
  let calls := [(demo_message malformed, demo_context);
                (demo_message negative_x, demo_context)] in
  let s := demo_store "double" (Some 1) 0 in
  (max_retries (self s) = Some 1 /\
   current_retry (self s) = 0 /\
   all_recoverable FunctionSchema_call calls s) /\
  (length (fst (run_all FunctionSchema_call calls s)) = length calls /\
   forall (i : nat) (r : outcome response),
     nth_error (fst (run_all FunctionSchema_call calls s)) i = Some r ->
     (Z.of_nat i < 1 -> exists p, r = Ok (RetryPrompt p)) /\
     (Z.of_nat i = 1 ->
      exists cause,
        r = Raise (UnexpectedModelBehavior
                     ("Tool exceeded max retries count of " ++ str_int 1)
                     (Some cause)))).
Proof.
  cbn zeta.
  assert (Hk : max_retries (self (demo_store "double" (Some 1) 0)) = Some 1)
    by reflexivity.
  assert (H0 : current_retry (self (demo_store "double" (Some 1) 0)) = 0)
    by reflexivity.
  assert (Hall : all_recoverable FunctionSchema_call
                   [(demo_message malformed, demo_context);
                    (demo_message negative_x, demo_context)]
                   (demo_store "double" (Some 1) 0))
    by (vm_compute; repeat split).
  split; [repeat split; assumption|].
  exact (retry_bound FunctionSchema_call 1 _ _ Hk H0 Hall).
Defined.

(** What that run gives, call by call. *)
Example retry_bound_scenario :
  fst (run_all FunctionSchema_call
         [(demo_message malformed, demo_context);
          (demo_message negative_x, demo_context)]
         (demo_store "double" (Some 1) 0))
  = [Ok (RetryPrompt
           {| RetryPromptPart.tool_name := "double";
              RetryPromptPart.content :=
                ErrorList [ {| ed_type := "json_invalid";
                               ed_loc := [];
                               ed_msg := "Invalid JSON: expected value at line 1 column 1";
                               ed_input := PStr "oops";
                               ed_ctx := None;
                               ed_url := None |} ];
              RetryPromptPart.tool_call_id := "call_1" |});
     Raise (UnexpectedModelBehavior "Tool exceeded max retries count of 1"
              (Some (ModelRetry "x must be positive")))].
Proof. vm_compute. reflexivity. Qed.

(** One failure behind it and a bound of 2: a success, then a failure
    that counts as the first. *)
Lemma reset_on_success_witness :
  let s := demo_store "double" (Some 2) 1 in
  let message := demo_message positive_x in
  (validate_args (self s) message = Ok (PDict [("x", PInt 21)]) /\
   FunctionSchema_call (function_schema (self s)) (PDict [("x", PInt 21)])
     (derived_context (self s) message demo_context) (world s)
   = (Ok (PInt 42), 1%nat)) /\
  exists s',
    _run FunctionSchema_call message demo_context s =
    (Ok (Returned
           {| ToolReturnPart.tool_name := ToolCallPart.tool_name message;
              ToolReturnPart.content := PInt 42;
              ToolReturnPart.tool_call_id :=
                ToolCallPart.tool_call_id message |}), s') /\
    current_retry (self s') = 0 /\
    max_retries (self s') = max_retries (self s) /\
    forall (k : Z) message2 run_context2,
      max_retries (self s) = Some k ->
      1 <= k ->
      is_recoverable (attempt FunctionSchema_call s' message2 run_context2)
      = true ->
      exists p s'',
        _run FunctionSchema_call message2 run_context2 s'
        = (Ok (RetryPrompt p), s'') /\
        current_retry (self s'') = 1.
Proof.
  cbn zeta.
  assert (Hv : validate_args (self (demo_store "double" (Some 2) 1))
                 (demo_message positive_x) = Ok (PDict [("x", PInt 21)]))
    by reflexivity.
  assert (Hc : FunctionSchema_call
                 (function_schema (self (demo_store "double" (Some 2) 1)))
                 (PDict [("x", PInt 21)])
                 (derived_context (self (demo_store "double" (Some 2) 1))
                    (demo_message positive_x) demo_context)
                 (world (demo_store "double" (Some 2) 1))
               = (Ok (PInt 42), 1%nat))
    by reflexivity.
  split; [split; assumption|].
  exact (reset_on_success FunctionSchema_call _ _ _ _ _ _ Hv Hc).
Defined.

(** Scenario B of the specification: a retry request, then a success. *)
Example retry_then_success_scenario :
  let run := run_all FunctionSchema_call
               [(demo_message negative_x, demo_context);
                (demo_message positive_x, demo_context)]
               (demo_store "double" (Some 1) 0) in
  fst run
  = [Ok (RetryPrompt
           {| RetryPromptPart.tool_name := "double";
              RetryPromptPart.content := ErrorText "x must be positive";
              RetryPromptPart.tool_call_id := "call_1" |});
     Ok (Returned
           {| ToolReturnPart.tool_name := "double";
              ToolReturnPart.content := PInt 42;
              ToolReturnPart.tool_call_id := "call_1" |})]
  /\ current_retry (self (snd run)) = 0.
Proof. vm_compute. split; reflexivity. Qed.


(** The same crash leaves the counter at 1. *)
Lemma other_exception_keeps_counter_witness :
  let s := demo_store "double" (Some 2) 1 in
  let message := demo_message crashing in
  (validate_args (self s) message = Ok (PDict [("crash", PNone)]) /\
   FunctionSchema_call (function_schema (self s)) (PDict [("crash", PNone)])
     (derived_context (self s) message demo_context) (world s)
   = (Raise (OtherException "ValueError" "crash"), 1%nat) /\
   (forall m, OtherException "ValueError" "crash" <> ModelRetry m)) /\
  current_retry
    (self (snd (_run FunctionSchema_call message demo_context s))) = 1.
Proof.
  cbn zeta.
  assert (Hv : validate_args (self (demo_store "double" (Some 2) 1))
                 (demo_message crashing) = Ok (PDict [("crash", PNone)]))
    by reflexivity.
  assert (Hc : FunctionSchema_call
                 (function_schema (self (demo_store "double" (Some 2) 1)))
                 (PDict [("crash", PNone)])
                 (derived_context (self (demo_store "double" (Some 2) 1))
                    (demo_message crashing) demo_context)
                 (world (demo_store "double" (Some 2) 1))
               = (Raise (OtherException "ValueError" "crash"), 1%nat))
    by reflexivity.
  assert (Hne : forall m, OtherException "ValueError" "crash" <> ModelRetry m)
    by (intros m; discriminate).
  split; [repeat split; assumption|].
  exact (proj1 (proj2 (other_exception_keeps_counter FunctionSchema_call
                         (demo_message crashing) demo_context
                         (demo_store "double" (Some 2) 1)
                         _ _ _ Hv Hc Hne))).
Defined.

(** C4 as stated fails: a tool whose bound is unset, at its very first
    recoverable failure, raises the fatal error; no default of the caller
    is looked at and no Retry Prompt is returned. *)
Lemma unset_bound_counterexample :
  let s := demo_store "double" None 0 in
  let message := demo_message malformed in
  max_retries (self s) = None /\
  current_retry (self s) = 0 /\
  is_recoverable (attempt FunctionSchema_call s message demo_context) = true /\
  fst (_run FunctionSchema_call message demo_context s)
  = Raise (UnexpectedModelBehavior "Tool exceeded max retries count of None"
             (Some (ValidationError [json_invalid "oops"]))) /\
  ~ (exists p,
       fst (_run FunctionSchema_call message demo_context s)
       = Ok (RetryPrompt p)).
Proof.
  cbn zeta. repeat split.
  intros [p Hp]. vm_compute in Hp. discriminate Hp.
Qed.

Lemma unset_bound_is_fatal_witness :
  let s := demo_store "double" None 0 in
  let message := demo_message malformed in
  (max_retries (self s) = None /\
   is_recoverable (attempt FunctionSchema_call s message demo_context) = true)
  /\
  ((exists cause s',
      _run FunctionSchema_call message demo_context s =
      (Raise (UnexpectedModelBehavior
                "Tool exceeded max retries count of None" (Some cause)), s') /\
      current_retry (self s') = current_retry (self s) + 1) /\
   (forall d : Z,
      1 <= d ->
      current_retry (self s) = 0 ->
      exists p s',
        _run FunctionSchema_call message demo_context
          {| self := with_max_retries (Some d) (self s); world := world s |}
        = (Ok (RetryPrompt p), s'))).
Proof.
  cbn zeta.
  assert (Hn : max_retries (self (demo_store "double" None 0)) = None)
    by reflexivity.
  assert (Hr : is_recoverable
                 (attempt FunctionSchema_call (demo_store "double" None 0)
                    (demo_message malformed) demo_context) = true)
    by reflexivity.
  split; [split; assumption|].
  exact (unset_bound_is_fatal FunctionSchema_call _ _ _ Hn Hr).
Defined.

(** C5 as stated fails: the fatal error is the same whatever the tool is
    called, its text does not contain the name, and no way of reading the
    error gives the name back. *)
Lemma exhaustion_error_counterexample :
  let run (n : string) :=
    fst (_run FunctionSchema_call (demo_message negative_x) demo_context
           (demo_store n (Some 0) 0)) in
  let fatal :=
    UnexpectedModelBehavior "Tool exceeded max retries count of 0"
      (Some (ModelRetry "x must be positive")) in
  name (self (demo_store "double" (Some 0) 0)) = "double"%string /\
  run "double"%string = Raise fatal /\
  String.index 0 "double" "Tool exceeded max retries count of 0" = None /\
  String.index 0 "double" "x must be positive" = None /\
  run "halve"%string = Raise fatal /\
  ~ (exists name_of : exn -> string,
       forall n : string, exists e, run n = Raise e /\ name_of e = n).
Proof.
  cbn zeta. repeat split.
  intros [name_of H].
  destruct (H "double"%string) as (e1 & E1 & N1).
  destruct (H "halve"%string) as (e2 & E2 & N2).
  vm_compute in E1, E2.
  injection E1 as <-. injection E2 as <-.
  rewrite N1 in N2. discriminate N2.
Qed.

Lemma exhaustion_error_reports_bound_witness :
  let s := demo_store "double" (Some 0) 0 in
  let message := demo_message negative_x in
  (is_recoverable (attempt FunctionSchema_call s message demo_context) = true
   /\ exhausted (self s) = true) /\
  exists (cause : exn) (s' : Store demo_world unit),
    let fatal :=
      UnexpectedModelBehavior
        ("Tool exceeded max retries count of "
           ++ format_optional_int (max_retries (self s)))
        (Some cause) in
    _run FunctionSchema_call message demo_context s = (Raise fatal, s') /\
    ((exists line_errors,
        validate_args (self s) message = Raise (ValidationError line_errors)
        /\ cause = ValidationError line_errors)
     \/
     (exists args_dict m w,
        validate_args (self s) message = Ok args_dict /\
        FunctionSchema_call (function_schema (self s)) args_dict
          (derived_context (self s) message demo_context) (world s)
        = (Raise (ModelRetry m), w) /\
        cause = ModelRetry m)) /\
    (forall k, max_retries (self s) = Some k -> reported_bound fatal = Some k)
    /\
    (forall n : string,
       fst (_run FunctionSchema_call message demo_context
              {| self := with_name n (self s); world := world s |})
       = Raise fatal).
Proof.
  cbn zeta.
  assert (Hr : is_recoverable
                 (attempt FunctionSchema_call (demo_store "double" (Some 0) 0)
                    (demo_message negative_x) demo_context) = true)
    by reflexivity.
  assert (Hx : exhausted (self (demo_store "double" (Some 0) 0)) = true)
    by reflexivity.
  split; [split; assumption|].
  exact (exhaustion_error_reports_bound FunctionSchema_call _ _ _ Hr Hx).
Defined.

(** In that run the cause is the callable's own request for a retry. *)
Example exhaustion_error_cause_scenario :
  fst (_run FunctionSchema_call (demo_message negative_x) demo_context
         (demo_store "double" (Some 0) 0))
  = Raise (UnexpectedModelBehavior "Tool exceeded max retries count of 0"
             (Some (ModelRetry "x must be positive"))) /\
  fst (_run FunctionSchema_call (demo_message malformed) demo_context
         (demo_store "double" (Some 0) 0))
  = Raise (UnexpectedModelBehavior "Tool exceeded max retries count of 0"
             (Some (ValidationError [json_invalid "oops"]))).
Proof. split; reflexivity. Qed.

(** A context-taking callable after two failures: what it is given. *)
Lemma context_derivation_witness :
  let s := demo_store "double" (Some 3) 2 in
  let message := demo_message ArgsNone in
  (FunctionSchema.takes_ctx (function_schema (self s)) = true /\
   validate_args (self s) message = Ok (PDict [])) /\
  _run FunctionSchema_call message demo_context s =
  after_call message s
    (Callable.apply (FunctionSchema.function (function_schema (self s)))
       (Some {| RunContext.deps := tt;
                RunContext.retry := 2;
                RunContext.tool_name := "double";
                RunContext.tool_call_id := "call_1" |})
       (PDict []) (world s)).
Proof.
  cbn zeta.
  assert (Hc : FunctionSchema.takes_ctx
                 (function_schema (self (demo_store "double" (Some 3) 2)))
               = true)
    by reflexivity.
  assert (Hv : validate_args (self (demo_store "double" (Some 3) 2))
                 (demo_message ArgsNone) = Ok (PDict []))
    by reflexivity.
  split; [split; assumption|].
  exact (context_derivation (demo_message ArgsNone) demo_context
           (demo_store "double" (Some 3) 2) (PDict []) Hc Hv).
Defined.

(** The callable of the example reports the context it was given: the
    counter on entry and the call's own name and identifier, not the
    7, 'other_tool' and 'earlier_call' of the base context. *)
Example context_observed_by_callable :
  fst (_run FunctionSchema_call (demo_message ArgsNone) demo_context
         (demo_store "double" (Some 3) 2))
  = Ok (Returned
          {| ToolReturnPart.tool_name := "double";
             ToolReturnPart.content :=
               PList [PInt 2; PStr "double"; PStr "call_1"];
             ToolReturnPart.tool_call_id := "call_1" |}).
Proof. vm_compute. reflexivity. Qed.

(** Scenario C of the specification: empty-string arguments. *)
Lemma argument_decoding_witness :
  let s := demo_store "double" (Some 1) 0 in
  let message := demo_message (ArgsStr "") in
  (ToolCallPart.args message = ArgsStr "" /\
   SchemaValidator.validate_json
     (FunctionSchema.validator (function_schema (self s))) "{}"
   = Ok (PDict [])) /\
  _run FunctionSchema_call message demo_context s =
  after_call message s
    (FunctionSchema_call (function_schema (self s)) (PDict [])
       (derived_context (self s) message demo_context) (world s)).
Proof.
  cbn zeta.
  assert (Ha : ToolCallPart.args (demo_message (ArgsStr "")) = ArgsStr "")
    by reflexivity.
  assert (Hv : SchemaValidator.validate_json
                 (FunctionSchema.validator
                    (function_schema (self (demo_store "double" (Some 1) 0))))
                 "{}" = Ok (PDict []))
    by reflexivity.
  split; [split; assumption|].
  exact (proj2 (proj2 (proj2 (proj2
           (argument_decoding FunctionSchema_call
              (demo_message (ArgsStr "")) demo_context
              (demo_store "double" (Some 1) 0))))) Ha Hv).
Defined.

Example empty_string_arguments_scenario :
  fst (_run FunctionSchema_call (demo_message (ArgsStr "")) demo_context
         (demo_store "double" (Some 1) 0))
  = Ok (Returned
          {| ToolReturnPart.tool_name := "double";
             ToolReturnPart.content :=
               PList [PInt 0; PStr "double"; PStr "call_1"];
             ToolReturnPart.tool_call_id := "call_1" |}).
Proof. vm_compute. reflexivity. Qed.

(** A Retry Prompt for malformed text: one field error, stripped. *)
Lemma retry_prompt_content_witness :
  let s := demo_store "double" (Some 1) 0 in
  let message := demo_message malformed in
  let p := {| RetryPromptPart.tool_name := "double";
              RetryPromptPart.content :=
                ErrorList [ {| ed_type := "json_invalid";
                               ed_loc := [];
                               ed_msg := "Invalid JSON: expected value at line 1 column 1";
                               ed_input := PStr "oops";
                               ed_ctx := None;
                               ed_url := None |} ];
              RetryPromptPart.tool_call_id := "call_1" |} in
  let s' := demo_store "double" (Some 1) 1 in
  _run FunctionSchema_call message demo_context s = (Ok (RetryPrompt p), s') /\
  RetryPromptPart.tool_name p = ToolCallPart.tool_name message /\
  RetryPromptPart.tool_call_id p = ToolCallPart.tool_call_id message.
Proof.
  cbn zeta.
  assert (E : _run FunctionSchema_call (demo_message malformed) demo_context
                (demo_store "double" (Some 1) 0)
              = (Ok (RetryPrompt
                       {| RetryPromptPart.tool_name := "double";
                          RetryPromptPart.content :=
                            ErrorList [ {| ed_type := "json_invalid";
                                           ed_loc := [];
                                           ed_msg := "Invalid JSON: expected value at line 1 column 1";
                                           ed_input := PStr "oops";
                                           ed_ctx := None;
                                           ed_url := None |} ];
                          RetryPromptPart.tool_call_id := "call_1" |}),
                 demo_store "double" (Some 1) 1))
    by reflexivity.
  split; [exact E|].
  destruct (retry_prompt_content FunctionSchema_call _ _ _ _ _ E)
    as (Hn & Hi & _).
  split; assumption.
Defined.

(** A [from_schema] tool given a bound of 1: a mapping goes to the
    function as it is. *)
Lemma from_schema_skips_validation_witness :
  let s := {| self := with_current_retry 0
                        (with_max_retries (Some 1) demo_from_schema);
              world := O |} in
  let message := demo_message positive_x in
  ToolCallPart.args message = ArgsDict [("x", PInt 21)] /\
  takes_ctx demo_from_schema = false /\
  _run FunctionSchema_call message demo_context s =
  after_call message s
    (Callable.apply demo_function None (PDict [("x", PInt 21)]) O).
Proof.
  cbn zeta.
  assert (Ha : ToolCallPart.args (demo_message positive_x)
               = ArgsDict [("x", PInt 21)])
    by reflexivity.
  split; [exact Ha|].
  pose proof (from_schema_skips_validation tt
                (fun _ (_ : unit) _ _ _ => demo_schema) (fun _ => false)
                (SchemaValidator.validate_json demo_validator)
                FunctionSchema_call
                demo_function "double_raw" None
                (PDict [("type", PStr "object")])) as H.
  cbn zeta in H. destruct H as (Ht & _ & _ & H).
  split; [exact Ht|].
  exact (proj1 (proj2 (H (Some 1) 0 O (demo_message positive_x) demo_context
                         [("x", PInt 21)] (or_introl Ha)))).
Defined.

Example from_schema_scenario :
  max_retries demo_from_schema = None /\
  name demo_from_schema = "double_raw"%string /\
  fst (_run FunctionSchema_call (demo_message positive_x) demo_context
         {| self := demo_from_schema; world := O |})
  = Ok (Returned
          {| ToolReturnPart.tool_name := "double";
             ToolReturnPart.content := PInt 42;
             ToolReturnPart.tool_call_id := "call_1" |}).
Proof. vm_compute. repeat split. Qed.

(* ================================================================== *)
(** ** More on [_run] and [_on_error] *)

Section Governor.

Context {World : Type} {AgentDepsT : Type}.

Variable call :
  FunctionSchema.t World AgentDepsT -> pyval -> RunContext.t AgentDepsT ->
  World -> outcome pyval * World.

Implicit Types (s : Store World AgentDepsT) (message : ToolCallPart.t)
  (run_context : RunContext.t AgentDepsT)
  (calls : list (ToolCallPart.t * RunContext.t AgentDepsT)).

Lemma with_current_retry_same (t : Tool World AgentDepsT) :
  with_current_retry (current_retry t) t = t.
Proof. destruct t; reflexivity. Qed.

Lemma with_current_retry_twice (a b : Z) (t : Tool World AgentDepsT) :
  with_current_retry a (with_current_retry b t) = with_current_retry a t.
Proof. reflexivity. Qed.

(** The outcomes of [_run], by what the validator and the callable do. *)
Lemma _run_cases message run_context s :
  match attempt call s message run_context with
  | DecodeFails line_errors =>
      _run call message run_context s =
      retry_prompt_or_raise (RValidationError line_errors) message s
  | DecodeCrashes e => _run call message run_context s = (Raise e, s)
  | RetryRequested m w =>
      _run call message run_context s =
      retry_prompt_or_raise (RModelRetry m) message
        {| self := self s; world := w |}
  | CallableFails e w =>
      _run call message run_context s =
      (Raise e, {| self := self s; world := w |})
  | Succeeds c w =>
      _run call message run_context s =
      (Ok (Returned
             {| ToolReturnPart.tool_name := ToolCallPart.tool_name message;
                ToolReturnPart.content := c;
                ToolReturnPart.tool_call_id :=
                  ToolCallPart.tool_call_id message |}),
       {| self := with_current_retry 0 (self s); world := w |})
  end.
Proof.
  unfold attempt. rewrite _run_eq. unfold after_validation.
  destruct (validate_args (self s) message) as [args_dict|e].
  - unfold after_call.
    destruct (call _ _ _ _) as [[c|e] w]; cbn [fst snd]; [reflexivity|].
    destruct e as [le|m|m cause|cls text]; reflexivity.
  - destruct e as [le|m|m cause|cls text]; reflexivity.
Qed.

(** One [_run] writes nothing of the tool but [current_retry]. *)
Lemma _run_frame message run_context s :
  self (snd (_run call message run_context s))
  = with_current_retry
      (current_retry (self (snd (_run call message run_context s))))
      (self s).
Proof.
  pose proof (_run_cases message run_context s) as H.
  destruct (attempt call s message run_context);
    rewrite H, ?retry_prompt_or_raise_eq; cbn [snd self];
    rewrite ?with_current_retry_twice;
    try reflexivity;
    symmetry; apply with_current_retry_same.
Qed.

Lemma run_all_frame calls :
  forall s,
    self (snd (run_all call calls s))
    = with_current_retry
        (current_retry (self (snd (run_all call calls s)))) (self s).
Proof.
  induction calls as [|[message run_context] rest IH]; intros s.
  - cbn [run_all snd]. symmetry. apply with_current_retry_same.
  - cbn [run_all].
    pose proof (_run_frame message run_context s) as H1.
    destruct (_run call message run_context s) as [r s'].
    cbn [snd] in H1. specialize (IH s').
    destruct (run_all call rest s') as [rs s''].
    cbn [snd] in *. rewrite IH, H1. reflexivity.
Qed.

(** X1.  Whatever happens in any number of calls of [_run] (Returns,
    Retry Prompts, the fatal error or any other exception), the tool
    afterwards is the tool before with, at most, another [current_retry]:
    the bound, the name, the schema, the function and the other
    attributes are never written. *)
Theorem runs_write_only_the_counter calls s :
  let t' := self (snd (run_all call calls s)) in
  t' = with_current_retry (current_retry t') (self s) /\
  max_retries t' = max_retries (self s) /\
  name t' = name (self s) /\
  function_schema t' = function_schema (self s).
Proof.
  cbn zeta. pose proof (run_all_frame calls s) as H.
  split; [exact H|]. rewrite H. repeat split.
Qed.

(** X2.  What a normal return of [_run] says about the counter: after a
    Return it is 0; after a Retry Prompt the tool has a bound, and the
    counter is one more than before and not above the bound. *)
Theorem counter_after_normal_return message run_context s :
  let r := _run call message run_context s in
  (forall p, fst r = Ok (Returned p) -> current_retry (self (snd r)) = 0) /\
  (forall p,
     fst r = Ok (RetryPrompt p) ->
     exists k,
       max_retries (self (snd r)) = Some k /\
       current_retry (self (snd r)) = current_retry (self s) + 1 /\
       current_retry (self (snd r)) <= k).
Proof.
  cbn zeta. pose proof (_run_cases message run_context s) as H.
  destruct (attempt call s message run_context);
    rewrite H, ?retry_prompt_or_raise_eq; cbn [fst snd self]; split;
    intros p Hp; try discriminate; try reflexivity;
    unfold exhausted in *;
    destruct (max_retries (self s)) as [k|] eqn:Ek; try discriminate;
    destruct (current_retry (self s) + 1 >? k) eqn:Egt; try discriminate;
    exists k; cbn [max_retries current_retry with_current_retry];
    (split; [exact Ek|split; [reflexivity|lia]]).
Qed.

(** X3.  The two [except] clauses are tied to their stage.  An exception
    of the validator that is not a [ValidationError], a [ModelRetry]
    included, leaves [_run] as it is, with the store untouched; so does a
    [ValidationError] raised by the callable, with the tool untouched.
    Neither is counted or turned into a Retry Prompt. *)
Theorem exceptions_are_matched_per_stage message run_context s :
  (forall e,
     validate_args (self s) message = Raise e ->
     (forall line_errors, e <> ValidationError line_errors) ->
     _run call message run_context s = (Raise e, s)) /\
  (forall m,
     validate_args (self s) message = Raise (ModelRetry m) ->
     _run call message run_context s = (Raise (ModelRetry m), s)) /\
  (forall args_dict line_errors w,
     validate_args (self s) message = Ok args_dict ->
     call (function_schema (self s)) args_dict
       (derived_context (self s) message run_context) (world s)
     = (Raise (ValidationError line_errors), w) ->
     _run call message run_context s =
     (Raise (ValidationError line_errors),
      {| self := self s; world := w |})).
Proof.
  assert (Hv : forall e,
             validate_args (self s) message = Raise e ->
             (forall line_errors, e <> ValidationError line_errors) ->
             _run call message run_context s = (Raise e, s)).
  { intros e He Hne. rewrite _run_eq, He. unfold after_validation.
    destruct e as [le|m|m cause|cls text]; try reflexivity.
    exfalso. apply (Hne le). reflexivity. }
  split; [exact Hv|split].
  - intros m Hm. apply Hv; [exact Hm|]. intros le. discriminate.
  - intros args_dict le w Ha Hc.
    rewrite _run_eq, Ha. unfold after_validation, after_call.
    rewrite Hc. reflexivity.
Qed.

(** X4.  When the validator rejects the arguments, whatever it raises,
    the callable is not invoked: the world is left as it was, and the
    outcome of [_run] is the same for any other way of dispatching to any
    other callable. *)
Theorem rejected_arguments_never_reach_the_callable message run_context s
    (e : exn) :
  validate_args (self s) message = Raise e ->
  world (snd (_run call message run_context s)) = world s /\
  forall call' : FunctionSchema.t World AgentDepsT -> pyval ->
                 RunContext.t AgentDepsT -> World -> outcome pyval * World,
    _run call' message run_context s = _run call message run_context s.
Proof.
  intros He. split.
  - rewrite _run_eq, He. unfold after_validation.
    destruct e as [le|m|m cause|cls text]; try reflexivity.
    rewrite retry_prompt_or_raise_eq. reflexivity.
  - intros call'. rewrite !_run_eq, He. reflexivity.
Qed.

Lemma exhausted_after_failure (t : Tool World AgentDepsT) :
  exhausted t = true ->
  exhausted (with_current_retry (current_retry t + 1) t) = true.
Proof.
  unfold exhausted. cbn [max_retries current_retry with_current_retry].
  destruct (max_retries t) as [k|]; [|reflexivity].
  intros H. apply Z.gtb_lt in H. apply Z.gtb_lt. lia.
Qed.

(** X5.  Exhaustion is not a one-off.  For a tool whose next recoverable
    failure goes past the bound (the counter has reached [max_retries],
    the bound is 0 or negative, or there is no bound), every call in a
    run of recoverable failures raises the fatal error: without a success
    in between, no Retry Prompt is given any more. *)
Theorem exhausted_stays_fatal calls :
  forall s,
    exhausted (self s) = true ->
    all_recoverable call calls s ->
    Forall (fun r =>
              exists cause,
                r = Raise (UnexpectedModelBehavior
                             (exceeded_text (max_retries (self s)))
                             (Some cause)))
           (fst (run_all call calls s)).
Proof.
  induction calls as [|[message run_context] rest IH]; intros s Hex Hall.
  - constructor.
  - cbn [all_recoverable] in Hall. destruct Hall as [Hrec Hrest].
    cbn [run_all].
    destruct (recoverable_failure_step _ _ _ _ Hrec) as (exc & w & E).
    rewrite E in Hrest |- *. rewrite Hex. cbn [snd] in Hrest.
    match type of Hrest with
    | all_recoverable _ _ ?s1 =>
        specialize (IH s1 (exhausted_after_failure _ Hex) Hrest)
    end.
    destruct (run_all call rest _) as [rs s''].
    cbn [fst] in *. constructor; [eauto|exact IH].
Qed.

(** X6.  A success gives the whole budget back.  From any state of the
    counter, also past the bound, once a call validates and its callable
    returns, a following run of recoverable failures is answered by
    Retry Prompts for its first [max_retries] calls and by the fatal
    error at the next. *)
Theorem success_restores_the_budget message run_context s
    (args_dict c : pyval) (w : World) (k : Z) calls :
  max_retries (self s) = Some k ->
  validate_args (self s) message = Ok args_dict ->
  call (function_schema (self s)) args_dict
    (derived_context (self s) message run_context) (world s) = (Ok c, w) ->
  let s' := snd (_run call message run_context s) in
  all_recoverable call calls s' ->
  forall (i : nat) (r : outcome response),
    nth_error (fst (run_all call calls s')) i = Some r ->
    (Z.of_nat i < k -> exists p, r = Ok (RetryPrompt p)) /\
    (Z.of_nat i = k ->
     exists cause,
       r = Raise (UnexpectedModelBehavior
                    ("Tool exceeded max retries count of " ++ str_int k)
                    (Some cause))).
Proof.
  intros Hk Hv Hc s' Hall i r Hi.
  assert (E : s' = {| self := with_current_retry 0 (self s); world := w |}).
  { subst s'. rewrite _run_eq, Hv. unfold after_validation, after_call.
    rewrite Hc. reflexivity. }
  assert (Hk' : max_retries (self s') = Some k) by (rewrite E; exact Hk).
  destruct (retry_bound_from call k calls s' Hk' Hall i r Hi) as [Hlt Hge].
  rewrite E in Hlt, Hge.
  cbn [self current_retry with_current_retry] in Hlt, Hge.
  split; intros H; [apply Hlt|apply Hge]; lia.
Qed.

(** X8.  [_run] does not look at the tool's own [name]: it neither
    compares it with the [tool_name] of the call nor puts it into its
    answer.  Under any other name the outcome and the world are the same,
    and the tool afterwards differs by that name only. *)
Theorem run_ignores_the_name_of_the_tool (n : string) message run_context s :
  let r := _run call message run_context s in
  let r' := _run call message run_context
              {| self := with_name n (self s); world := world s |} in
  fst r' = fst r /\
  world (snd r') = world (snd r) /\
  self (snd r') = with_name n (self (snd r)).
Proof.
  cbn zeta.
  pose proof (_run_cases message run_context s) as H.
  pose proof (_run_cases message run_context
                {| self := with_name n (self s); world := world s |}) as H'.
  rewrite (attempt_with_name call n) in H'.
  destruct (attempt call s message run_context);
    rewrite H, H', ?retry_prompt_or_raise_eq; cbn [fst snd self world];
    repeat split.
Qed.

End Governor.

(* ================================================================== *)
(** ** Construction, definitions and retries together *)

Section Construction.

Context {World : Type} {AgentDepsT : Type} {GenerateJsonSchema : Type}.

Variable GenerateToolJsonSchema : GenerateJsonSchema.
Variable function_schema_of :
  Callable.t World AgentDepsT -> GenerateJsonSchema -> option bool ->
  DocstringFormat -> bool -> FunctionSchema.t World AgentDepsT.
Variable is_async_callable : Callable.t World AgentDepsT -> bool.
Variable from_json : string -> outcome pyval.
Variable call :
  FunctionSchema.t World AgentDepsT -> pyval -> RunContext.t AgentDepsT ->
  World -> outcome pyval * World.

Implicit Types (s : Store World AgentDepsT)
  (calls : list (ToolCallPart.t * RunContext.t AgentDepsT)).

Lemma or_str_nonempty (a : option string) (b : string) :
  b <> ""%string -> or_str a b <> ""%string.
Proof.
  intros Hb. unfold or_str. destruct a as [x|]; [|exact Hb].
  destruct (String.eqb x "") eqn:E; [exact Hb|].
  apply String.eqb_neq. exact E.
Qed.

Lemma or_optional_str_same (a : option string) : or_optional_str a a = a.
Proof.
  unfold or_optional_str. destruct a as [x|]; [|reflexivity].
  destruct (String.eqb x ""); reflexivity.
Qed.

(** X9.  What [__init__] sets up and every later call of [_run] keeps:
    the counter starts at 0; [takes_ctx] is that of the function schema
    in use, so a [takes_ctx] argument is overridden by a schema that is
    passed in; the bound is the one given; and the tool has a non-empty
    name as soon as the function has one, also when the [name] argument
    is missing or empty. *)
Theorem init_invariants
    (function : Callable.t World AgentDepsT) (takes_ctx_arg : option bool)
    (max_retries_arg : option Z) (name_arg description_arg : option string)
    (prepare_arg : option (ToolPrepareFunc World AgentDepsT))
    (docstring_format_arg : DocstringFormat) (require_arg : bool)
    (schema_generator : GenerateJsonSchema) (strict_arg : option bool)
    (function_schema_arg : option (FunctionSchema.t World AgentDepsT))
    (w : World) calls :
  let t := __init__ function_schema_of function takes_ctx_arg
             max_retries_arg name_arg description_arg prepare_arg
             docstring_format_arg require_arg schema_generator strict_arg
             function_schema_arg in
  let t' := self (snd (run_all call calls {| self := t; world := w |})) in
  current_retry t = 0 /\
  takes_ctx t' = FunctionSchema.takes_ctx (function_schema t') /\
  (forall fs, function_schema_arg = Some fs ->
              function_schema t' = fs /\
              takes_ctx t' = FunctionSchema.takes_ctx fs) /\
  max_retries t' = max_retries_arg /\
  (Callable.__name__ function <> ""%string -> name t' <> ""%string).
Proof.
  intros t t'.
  pose proof (run_all_frame call calls {| self := t; world := w |}) as H.
  fold t' in H. cbn [self] in H.
  split; [reflexivity|]. rewrite H.
  cbn [takes_ctx function_schema max_retries name with_current_retry].
  split; [reflexivity|split; [|split; [reflexivity|]]].
  - intros fs ->. split; reflexivity.
  - intros Hn. subst t. cbn [name __init__]. apply or_str_nonempty, Hn.
Qed.

(** X10.  What [from_schema] is given is what [prepare_tool_def] shows:
    the definition of a tool built by [from_schema] has the given JSON
    schema and description, the given name (the function's [__name__] if
    the given name is empty), no [strict] setting and no outer key; and
    preparing it changes neither the tool nor the world. *)
Theorem from_schema_definition
    (function : Callable.t World AgentDepsT) (name_arg : string)
    (description_arg : option string) (json_schema : pyval)
    (ctx : RunContext.t AgentDepsT) (w : World) :
  let s := {| self := from_schema GenerateToolJsonSchema function_schema_of
                        is_async_callable from_json function name_arg
                        description_arg json_schema;
              world := w |} in
  prepare_tool_def ctx s =
  (Ok (Some {| ToolDefinition.name :=
                 if String.eqb name_arg ""
                 then Callable.__name__ function else name_arg;
               ToolDefinition.parameters_json_schema := json_schema;
               ToolDefinition.description := description_arg;
               ToolDefinition.outer_typed_dict_key := None;
               ToolDefinition.strict := None |}), s).
Proof.
  cbn zeta. unfold prepare_tool_def, bind, get_self, ret.
  cbn [self from_schema __init__ prepare name description strict
       function_schema FunctionSchema.json_schema
       FunctionSchema.description or_str].
  rewrite or_optional_str_same. reflexivity.
Qed.

Lemma no_bound_no_prompt calls :
  forall s,
    max_retries (self s) = None ->
    Forall (fun r => forall p, r <> Ok (RetryPrompt p))
           (fst (run_all call calls s)).
Proof.
  induction calls as [|[message run_context] rest IH]; intros s Hn.
  - constructor.
  - cbn [run_all].
    pose proof (_run_frame call message run_context s) as Hf.
    pose proof (_run_cases call message run_context s) as Hc.
    assert (Hex : exhausted (self s) = true)
      by (unfold exhausted; rewrite Hn; reflexivity).
    destruct (_run call message run_context s) as [r s'] eqn:E.
    cbn [snd] in Hf.
    assert (Hn' : max_retries (self s') = None)
      by (rewrite Hf; exact Hn).
    specialize (IH s' Hn').
    destruct (run_all call rest s') as [rs s''].
    cbn [fst] in *. constructor; [|exact IH].
    intros p Hp. subst r.
    destruct (attempt call s message run_context);
      rewrite ?retry_prompt_or_raise_eq in Hc; cbn [self] in Hc;
      rewrite ?Hex in Hc; discriminate Hc.
Qed.

(** X11.  A tool built by [from_schema] has no bound, and [_run] never
    gives it one; so, used as it is built, it never answers with a Retry
    Prompt, in any number of calls: every outcome is a Return or an
    exception, and each recoverable failure is fatal at once. *)
Theorem from_schema_tool_never_prompts
    (function : Callable.t World AgentDepsT) (name_arg : string)
    (description_arg : option string) (json_schema : pyval)
    (w : World) calls :
  let t := from_schema GenerateToolJsonSchema function_schema_of
             is_async_callable from_json function name_arg
             description_arg json_schema in
  max_retries t = None /\
  Forall (fun r => forall p, r <> Ok (RetryPrompt p))
         (fst (run_all call calls {| self := t; world := w |})).
Proof.
  intros t. split; [reflexivity|].
  apply no_bound_no_prompt. reflexivity.
Qed.

(** X12.  The retry history does not show in what is offered to the
    model: after any number of calls of [_run], [prepare_tool_def] builds
    the same definition, hands the same definition to the [prepare] hook
    if there is one, and has the same outcome in the same world, as
    before those calls; and it never changes the tool. *)
Theorem definition_is_independent_of_retries
    (ctx : RunContext.t AgentDepsT) (w : World) calls s :
  let t' := self (snd (run_all call calls s)) in
  fst (prepare_tool_def ctx {| self := t'; world := w |})
  = fst (prepare_tool_def ctx {| self := self s; world := w |}) /\
  self (snd (prepare_tool_def ctx {| self := t'; world := w |})) = t'.
Proof.
  cbn zeta. pose proof (run_all_frame call calls s) as H.
  set (t' := self (snd (run_all call calls s))) in *.
  split.
  - rewrite H. unfold prepare_tool_def, bind, get_self, ret, user_call.
    cbn [self world name description strict function_schema prepare
         with_current_retry].
    destruct (prepare (self s)) as [hook|]; [|reflexivity].
    cbn [self world].
    match goal with
    | |- context [hook ctx ?d w] => destruct (hook ctx d w) as [o w']
    end.
    reflexivity.
  - unfold prepare_tool_def, bind, get_self, ret, user_call.
    cbn [self world].
    destruct (prepare t') as [hook|]; [|reflexivity].
    cbn [self world].
    match goal with
    | |- context [hook ctx ?d w] => destruct (hook ctx d w) as [o w']
    end.
    reflexivity.
Qed.

End Construction.

(* ================================================================== *)
(** ** The schema generator *)

Lemma dict_get_set (q p : string) (v : pyval) (d : dict) :
  dict_get q (dict_set p v d)
  = if String.eqb q p then Some v else dict_get q d.
Proof.
  induction d as [|[k' v'] rest IH]; cbn [dict_set dict_get].
  - reflexivity.
  - destruct (String.eqb p k') eqn:Epk; cbn [dict_get].
    + apply String.eqb_eq in Epk. subst k'.
      destruct (String.eqb q p); reflexivity.
    + rewrite IH. destruct (String.eqb q k') eqn:Eqk; [|reflexivity].
      apply String.eqb_eq in Eqk. subst k'.
      rewrite String.eqb_sym, Epk. reflexivity.
Qed.

Lemma dict_get_pop (q p : string) (d : dict) :
  dict_get q (dict_pop p d)
  = if String.eqb q p then None else dict_get q d.
Proof.
  induction d as [|[k' v'] rest IH]; cbn [dict_pop dict_get].
  - destruct (String.eqb q p); reflexivity.
  - destruct (String.eqb p k') eqn:Epk; cbn [dict_get]; rewrite IH.
    + apply String.eqb_eq in Epk. subst k'.
      destruct (String.eqb q p); reflexivity.
    + destruct (String.eqb q k') eqn:Eqk; [|reflexivity].
      apply String.eqb_eq in Eqk. subst k'.
      rewrite String.eqb_sym, Epk. reflexivity.
Qed.

Lemma dict_pop_twice (p : string) (d : dict) :
  dict_pop p (dict_pop p d) = dict_pop p d.
Proof.
  induction d as [|[k' v'] rest IH]; cbn [dict_pop].
  - reflexivity.
  - destruct (String.eqb p k') eqn:Epk; cbn [dict_pop].
    + exact IH.
    + rewrite Epk, IH. reflexivity.
Qed.

Lemma existsb_keys (q : string) (d : dict) :
  existsb (String.eqb q) (map fst d)
  = match dict_get q d with Some _ => true | None => false end.
Proof.
  induction d as [|[k' v'] rest IH]; cbn [map fst existsb dict_get].
  - reflexivity.
  - destruct (String.eqb q k'); [reflexivity|exact IH].
Qed.

Lemma dict_get_in_keys (q : string) (v : pyval) (d : dict) :
  dict_get q d = Some v -> In q (map fst d).
Proof.
  induction d as [|[k' v'] rest IH]; cbn [map fst dict_get In].
  - discriminate.
  - destruct (String.eqb q k') eqn:E.
    + apply String.eqb_eq in E. intros _. left. now symmetry.
    + intros H. right. exact (IH H).
Qed.

Lemma in_keys_dict_get (q : string) (d : dict) :
  In q (map fst d) -> exists v, dict_get q d = Some v.
Proof.
  induction d as [|[k' v'] rest IH]; cbn [map fst dict_get In].
  - intros [].
  - destruct (String.eqb q k') eqn:E; [eauto|].
    intros [H|H]; [|exact (IH H)].
    subst k'. rewrite String.eqb_refl in E. discriminate.
Qed.

(** After the loop, a key the loop went over holds its old mapping
    without ['title'], and any other key holds what it held. *)
Lemma pop_titles_get (keys : list string) :
  forall properties properties',
    pop_titles keys properties = Some properties' ->
    forall q,
      dict_get q properties'
      = if existsb (String.eqb q) keys
        then option_map without_title (dict_get q properties)
        else dict_get q properties.
Proof.
  induction keys as [|p rest IH]; intros properties properties' H q.
  - injection H as <-. reflexivity.
  - cbn [pop_titles] in H.
    destruct (dict_get p properties) as [[| | | |l|d]|] eqn:Ep;
      try discriminate H.
    rewrite (IH _ _ H q), dict_get_set. cbn [existsb].
    destruct (String.eqb q p) eqn:Eqp; cbn [orb].
    + apply String.eqb_eq in Eqp. subst q. rewrite Ep.
      cbn [option_map without_title].
      destruct (existsb (String.eqb p) rest); [|reflexivity].
      now rewrite dict_pop_twice.
    + reflexivity.
Qed.

(** The loop goes through exactly when every key it visits holds a
    mapping. *)
Lemma pop_titles_succeeds (keys : list string) :
  forall properties,
    (exists properties', pop_titles keys properties = Some properties') <->
    (forall q, In q keys -> exists d, dict_get q properties = Some (PDict d)).
Proof.
  induction keys as [|p rest IH]; intros properties.
  - split; [intros _ q []|intros _; eexists; reflexivity].
  - cbn [pop_titles]. split.
    + intros [properties' H] q Hq.
      destruct (dict_get p properties) as [[| | | |l|d]|] eqn:Ep;
        try discriminate H.
      destruct (String.eqb q p) eqn:Eqp.
      * apply String.eqb_eq in Eqp. subst q. eauto.
      * destruct Hq as [<-|Hq]; [rewrite String.eqb_refl in Eqp; discriminate|].
        destruct (proj1 (IH _) (ex_intro _ _ H) q Hq) as [d' Hd'].
        rewrite dict_get_set, Eqp in Hd'. eauto.
    + intros Hall.
      destruct (Hall p (or_introl eq_refl)) as [d Hd]. rewrite Hd.
      apply IH. intros q Hq. rewrite dict_get_set.
      destruct (String.eqb q p); [eauto|].
      apply Hall. right. exact Hq.
Qed.

Section SchemaGenerator.

Variable super_typed_dict_schema : dict -> dict.
Variable super_named_required_fields_schema :
  list (string * bool * pyval) -> dict.

(** X13.  [typed_dict_schema] closes a typed dict by default and changes
    nothing else.  Every key of the parent's schema other than
    ['additionalProperties'] keeps its value; a value the parent gave to
    ['additionalProperties'] is kept; if the parent gave none, it
    becomes [False] when the typed dict's ['total'] is [True], [None] or
    missing, and stays absent for any other ['total']. *)
Theorem typed_dict_schema_additional_properties (schema : dict) :
  let s := super_typed_dict_schema schema in
  let r := typed_dict_schema super_typed_dict_schema schema in
  (forall k, k <> "additionalProperties"%string ->
             dict_get k r = dict_get k s) /\
  (forall v, dict_get "additionalProperties" s = Some v -> r = s) /\
  (dict_get "additionalProperties" s = None ->
   (dict_get "total" schema = None \/
    dict_get "total" schema = Some PNone \/
    dict_get "total" schema = Some (PBool true)) ->
   dict_get "additionalProperties" r = Some (PBool false)) /\
  (forall v, dict_get "total" schema = Some v ->
             v <> PNone -> v <> PBool true -> r = s).
Proof.
  cbn zeta. unfold typed_dict_schema, dict_contains.
  repeat split.
  - intros k Hk.
    match goal with |- context [if ?c then _ else _] => destruct c end;
      [|reflexivity].
    rewrite dict_get_set. apply String.eqb_neq in Hk. now rewrite Hk.
  - intros v Hv. rewrite Hv. reflexivity.
  - intros Hnone Htotal. rewrite Hnone.
    destruct Htotal as [->|[->| ->]]; cbn [negb andb orb];
      rewrite dict_get_set; reflexivity.
  - intros v Hv Hn Ht. rewrite Hv.
    destruct v as [|[|]| | | |];
      rewrite ?andb_false_r; try reflexivity; contradiction.
Qed.

(** X14.  When [_named_required_fields_schema] returns, it has removed
    the ['title'] of every property and nothing else: every top-level key
    other than ['properties'] keeps its value (a top-level ['title']
    too), the properties are the same keys, and each property's schema is
    the old one with ['title'] absent and every other key, with whatever
    is nested under it, unchanged. *)
Theorem named_required_fields_lose_their_titles
    (named_required_fields : list (string * bool * pyval)) (r : dict) :
  let s := super_named_required_fields_schema named_required_fields in
  _named_required_fields_schema super_named_required_fields_schema
    named_required_fields = Some r ->
  (forall k, k <> "properties"%string -> dict_get k r = dict_get k s) /\
  (forall properties,
     dict_get "properties" s = Some (PDict properties) ->
     exists properties',
       dict_get "properties" r = Some (PDict properties') /\
       forall p,
         match dict_get p properties with
         | None => dict_get p properties' = None
         | Some v =>
             exists d d',
               v = PDict d /\
               dict_get p properties' = Some (PDict d') /\
               dict_get "title" d' = None /\
               forall k, k <> "title"%string -> dict_get k d' = dict_get k d
         end).
Proof.
  cbn zeta. unfold _named_required_fields_schema.
  destruct (dict_get "properties"
              (super_named_required_fields_schema named_required_fields))
    as [v|] eqn:Eprops.
  - destruct v as [| | |x|l|properties].
    1-3: discriminate.
    + destruct (String.eqb x ""); [|discriminate].
      intros H. injection H as <-.
      split; [reflexivity|]. intros properties Hp. congruence.
    + destruct l; [|discriminate].
      intros H. injection H as <-.
      split; [reflexivity|]. intros properties Hp. congruence.
    + destruct (pop_titles (map fst properties) properties)
        as [properties'|] eqn:Epop; [|discriminate].
      intros H. injection H as <-. split.
      * intros k Hk. rewrite dict_get_set.
        apply String.eqb_neq in Hk. now rewrite Hk.
      * intros properties0 Hp. injection Hp as <-.
        exists properties'. rewrite dict_get_set. split; [reflexivity|].
        intros p. rewrite (pop_titles_get _ _ _ Epop p), existsb_keys.
        destruct (dict_get p properties) as [v|] eqn:Ev; [|reflexivity].
        assert (Hin : In p (map fst properties))
          by exact (dict_get_in_keys _ _ _ Ev).
        destruct (proj1 (pop_titles_succeeds _ _)
                    (ex_intro _ _ Epop) p Hin) as [d Hd].
        rewrite Ev in Hd. injection Hd as ->.
        exists d, (dict_pop "title" d).
        split; [reflexivity|split; [reflexivity|split]].
        -- rewrite dict_get_pop. reflexivity.
        -- intros k Hk. rewrite dict_get_pop.
           apply String.eqb_neq in Hk. now rewrite Hk.
  - intros H. injection H as <-.
    split; [reflexivity|]. intros properties Hp. discriminate Hp.
Qed.

(** X15.  When it returns and when it raises.  Without a ['properties']
    key the parent's schema comes back as it is; with a mapping under
    ['properties'] the method returns exactly when every property's
    schema is itself a mapping, and raises as soon as one is not. *)
Theorem named_required_fields_schema_returns
    (named_required_fields : list (string * bool * pyval)) :
  let s := super_named_required_fields_schema named_required_fields in
  let result :=
    _named_required_fields_schema super_named_required_fields_schema
      named_required_fields in
  (dict_get "properties" s = None -> result = Some s) /\
  (forall properties,
     dict_get "properties" s = Some (PDict properties) ->
     ((exists r, result = Some r) <->
      (forall p v, dict_get p properties = Some v -> exists d, v = PDict d))).
Proof.
  cbn zeta. unfold _named_required_fields_schema. split.
  - intros ->. reflexivity.
  - intros properties ->.
    pose proof (pop_titles_succeeds (map fst properties) properties) as Hs.
    split.
    + intros [r Hr].
      destruct (pop_titles (map fst properties) properties)
        as [properties'|] eqn:Epop; [|discriminate].
      intros p v Hv.
      assert (Hin : In p (map fst properties))
        by exact (dict_get_in_keys _ _ _ Hv).
      destruct (proj1 Hs (ex_intro _ _ eq_refl) p Hin) as [d Hd].
      rewrite Hv in Hd. injection Hd as ->. eauto.
    + intros Hall.
      destruct (proj2 Hs) as [properties' Hp].
      * intros q Hq.
        destruct (dict_get q properties) as [v|] eqn:Ev.
        -- destruct (Hall q v Ev) as [d ->]. eauto.
        -- destruct (in_keys_dict_get _ _ Hq) as [v Hv]. congruence.
      * rewrite Hp. eauto.
Qed.

End SchemaGenerator.

(* ================================================================== *)
(** ** [run]: the span around [_run] *)

Section TracedRuns.

Context {World : Type} {AgentDepsT : Type}.

Variable call :
  FunctionSchema.t World AgentDepsT -> pyval -> RunContext.t AgentDepsT ->
  World -> outcome pyval * World.
Variable args_as_json_str : ToolCallPart.t -> string.
Variable model_response_str : ToolReturnPart.t -> string.
Variable model_response : RetryPromptPart.t -> string.
Variable json_dumps : pyval -> string.

Implicit Types (s : Store World AgentDepsT) (message : ToolCallPart.t)
  (run_context : RunContext.t AgentDepsT) (tracer : Tracer.t World)
  (calls : list (ToolCallPart.t * RunContext.t AgentDepsT)).

Lemma user_call_ok {A : Type} (f : World -> outcome A * World) (a : A) s :
  fst (f (world s)) = Ok a ->
  user_call f s = (Ok a, {| self := self s; world := snd (f (world s)) |}).
Proof.
  unfold user_call. destruct (f (world s)) as [o w]. cbn [fst snd].
  intros ->. reflexivity.
Qed.

(** Under a quiet tracer [run] is [_run] inside the span: same outcome,
    same tool afterwards. *)
Lemma run_quiet message run_context tracer (include_content : bool) s :
  quiet_tracer tracer ->
  exists w,
    run call args_as_json_str model_response_str
      model_response json_dumps message run_context tracer include_content s =
    (fst (_run call message run_context
            (store_in_span args_as_json_str json_dumps tracer message include_content s)),
     {| self :=
          self (snd (_run call message run_context
                       (store_in_span args_as_json_str json_dumps tracer message include_content s)));
        world := w |}).
Proof.
  intros Hq. unfold run, store_in_span.
  unfold bind at 1. unfold get_self at 1. cbn iota beta.
  unfold bind at 1.
  destruct (Hq "running tool"%string
              (span_attributes args_as_json_str json_dumps (self s) message include_content) (world s))
    as (span & Hstart & Hrec & Hset & Hexit).
  rewrite (user_call_ok _ _ _ Hstart).
  set (s1 := {| self := self s; world := _ |}).
  unfold with_block. unfold bind at 1.
  destruct (_run call message run_context s1) as [[response|e] s2];
    cbn [fst snd].
  - unfold bind at 1.
    assert (Hmid : exists s3,
               (if include_content
                then
                  bind (user_call (Span.is_recording span))
                    (fun recording : bool =>
                       if recording
                       then user_call
                              (Span.set_attribute span "tool_response"
                                 match response with
                                 | Returned p => model_response_str p
                                 | RetryPrompt p => model_response p
                                 end)
                       else ret tt)
                else ret tt) s2 = (Ok tt, s3) /\ self s3 = self s2).
    { destruct include_content.
      - unfold bind. destruct (Hrec (world s2)) as [b Hb].
        rewrite (user_call_ok _ _ _ Hb). destruct b.
        + rewrite (user_call_ok _ _ _ (Hset _ _ _)).
          eexists. split; reflexivity.
        + eexists. split; reflexivity.
      - eexists. split; reflexivity. }
    destruct Hmid as (s3 & -> & Hs3). unfold ret at 1.
    rewrite (user_call_ok _ _ _ (Hexit _ _)). cbn [self].
    rewrite Hs3. eexists. reflexivity.
  - rewrite (user_call_ok _ _ _ (Hexit _ _)). eexists. reflexivity.
Qed.

(** X16.  With a tracer whose operations do not raise, the span makes no
    difference to the call: [run] has the outcome (the same response, or
    the same exception) that [_run] has in the world as opening the span
    left it, and leaves the tool as [_run] leaves it, whether or not
    content is included. *)
Theorem run_is_run_inside_the_span message run_context tracer
    (include_content : bool) s :
  quiet_tracer tracer ->
  let inner := _run call message run_context
                 (store_in_span args_as_json_str json_dumps tracer message include_content s) in
  fst (run call args_as_json_str model_response_str
      model_response json_dumps message run_context tracer include_content s) = fst inner /\
  self (snd (run call args_as_json_str model_response_str
      model_response json_dumps message run_context tracer include_content s))
  = self (snd inner).
Proof.
  intros Hq inner.
  destruct (run_quiet message run_context tracer include_content s Hq)
    as [w E].
  rewrite E. split; reflexivity.
Qed.

Lemma run_all_traced_length tracer (include_content : bool) calls s :
  length (fst (run_all_traced call args_as_json_str model_response_str
                 model_response json_dumps tracer include_content calls s))
  = length calls.
Proof.
  revert s. induction calls as [|[message run_context] rest IH]; intros s.
  - reflexivity.
  - cbn [run_all_traced].
    destruct (run call args_as_json_str model_response_str
      model_response json_dumps message run_context tracer include_content s) as [r s'].
    specialize (IH s').
    destruct (run_all_traced _ _ _ _ _ _ _ rest s') as [rs s''].
    cbn [fst length] in *. now rewrite IH.
Qed.

Lemma retry_bound_traced_from tracer (include_content : bool) (k : Z) calls :
  quiet_tracer tracer ->
  forall s,
    max_retries (self s) = Some k ->
    all_recoverable_traced call args_as_json_str model_response_str
      model_response json_dumps tracer include_content calls s ->
    forall (i : nat) (r : outcome response),
      nth_error
        (fst (run_all_traced call args_as_json_str model_response_str
                model_response json_dumps tracer include_content calls s))
        i = Some r ->
      (current_retry (self s) + Z.of_nat i < k ->
       exists p, r = Ok (RetryPrompt p)) /\
      (k <= current_retry (self s) + Z.of_nat i ->
       exists cause,
         r = Raise (UnexpectedModelBehavior (exceeded_text (Some k))
                      (Some cause))).
Proof.
  intros Hq.
  induction calls as [|[message run_context] rest IH]; intros s Hk Hall i r Hi.
  - destruct i; discriminate.
  - cbn [all_recoverable_traced] in Hall. destruct Hall as [Hrec Hrest].
    cbn [run_all_traced] in Hi.
    destruct (run_quiet message run_context tracer include_content s Hq)
      as [w E].
    destruct (recoverable_failure_step _ _ _ _ Hrec) as (exc & w' & E').
    rewrite E' in E. cbn [fst snd self store_in_span] in E.
    rewrite E in Hi, Hrest. cbn [snd] in Hrest.
    match type of Hrest with
    | all_recoverable_traced _ _ _ _ _ _ _ _ ?s1 =>
        specialize (IH s1 Hk Hrest)
    end.
    destruct (run_all_traced _ _ _ _ _ _ _ rest _) as [rs s''] eqn:Erest.
    cbn [fst] in Hi, IH.
    destruct i as [|i]; cbn [nth_error] in Hi.
    + injection Hi as <-. rewrite (exhausted_Some _ _ Hk), Hk.
      split; intros Hlt.
      * destruct (current_retry (self s) + 1 >? k) eqn:Egt; [lia|eauto].
      * destruct (current_retry (self s) + 1 >? k) eqn:Egt; [eauto|lia].
    + specialize (IH i r Hi).
      cbn [self current_retry with_current_retry] in IH.
      destruct IH as [IHlt IHge]. split; intros Hlt.
      * apply IHlt. lia.
      * apply IHge. lia.
Qed.

(** X17.  The retry bound holds at the public entry point.  With a
    tracer whose operations do not raise, whatever it does to the world,
    a tool with [max_retries = k] and the counter at 0 that is called
    through [run], in a run of calls that are all recoverable failures,
    answers each of the first [k] with a Retry Prompt and raises the
    fatal error at the [(k+1)]-th. *)
Theorem retry_bound_through_run tracer (include_content : bool) (k : Z)
    calls s :
  quiet_tracer tracer ->
  max_retries (self s) = Some k ->
  current_retry (self s) = 0 ->
  all_recoverable_traced call args_as_json_str model_response_str
    model_response json_dumps tracer include_content calls s ->
  let outcomes :=
    fst (run_all_traced call args_as_json_str model_response_str
           model_response json_dumps tracer include_content calls s) in
  length outcomes = length calls /\
  forall (i : nat) (r : outcome response),
    nth_error outcomes i = Some r ->
    (Z.of_nat i < k -> exists p, r = Ok (RetryPrompt p)) /\
    (Z.of_nat i = k ->
     exists cause,
       r = Raise (UnexpectedModelBehavior
                    ("Tool exceeded max retries count of " ++ str_int k)
                    (Some cause))).
Proof.
  intros Hq Hk H0 Hall outcomes. split; [apply run_all_traced_length|].
  intros i r Hi.
  destruct (retry_bound_traced_from tracer include_content k calls Hq s
              Hk Hall i r Hi) as [Hlt Hge].
  rewrite H0 in Hlt, Hge. split; intros H; [apply Hlt|apply Hge]; lia.
Qed.

(** X18.  Without [include_content], nothing of the arguments or of the
    response goes to the tracer.  The attributes the span is opened with
    have no ['tool_arguments'] entry and are the same for any arguments
    of the call; the span is neither asked whether it records nor
    written to, so that [run] comes out the same with spans that do
    these two things in any other way; and the renderings of the
    arguments and of the response are not used. *)
Theorem no_content_without_the_flag message run_context tracer s :
  (forall v, ~ In ("tool_arguments"%string, v)
               (span_attributes args_as_json_str json_dumps (self s)
                  message false)) /\
  (forall a,
     span_attributes args_as_json_str json_dumps (self s)
       (with_args a message) false
     = span_attributes args_as_json_str json_dumps (self s) message false) /\
  (forall is_recording set_attribute,
     run call args_as_json_str model_response_str model_response json_dumps
       message run_context
       (map_spans (with_span_methods is_recording set_attribute) tracer)
       false s
     = run call args_as_json_str model_response_str model_response
         json_dumps message run_context tracer false s) /\
  (forall args_as_json_str' model_response_str' model_response',
     run call args_as_json_str' model_response_str' model_response'
       json_dumps message run_context tracer false s
     = run call args_as_json_str model_response_str model_response
         json_dumps message run_context tracer false s).
Proof.
  split; [|split; [|split]].
  - intros v. cbn [span_attributes app In].
    intros [H|[H|[H|[H|[]]]]]; discriminate H.
  - intros a. reflexivity.
  - intros is_recording set_attribute.
    unfold run, bind, get_self, user_call, map_spans.
    cbn [self world Tracer.start_as_current_span].
    destruct (Tracer.start_as_current_span tracer _ _ _) as [[span|e] w1];
      reflexivity.
  - intros aj mrs mr. reflexivity.
Qed.

(** X19.  [run] does not shield the call from the tracer.  If the span
    cannot be opened, the tracer's exception leaves [run] before [_run]
    is entered: the callable is not invoked and the tool keeps its
    counter.  If, with [include_content], writing the response to a
    recording span raises after [_run] has returned, [run] raises that
    exception instead of returning the response, while the tool stays as
    [_run] left it. *)
Theorem tracer_failures_propagate message run_context tracer s :
  (forall (include_content : bool) e w1,
     Tracer.start_as_current_span tracer "running tool"
       (span_attributes args_as_json_str json_dumps (self s) message
          include_content) (world s) = (Raise e, w1) ->
     run call args_as_json_str model_response_str model_response json_dumps
       message run_context tracer include_content s
     = (Raise e, {| self := self s; world := w1 |})) /\
  (forall span w1 response s2 w3 e w4,
     Tracer.start_as_current_span tracer "running tool"
       (span_attributes args_as_json_str json_dumps (self s) message true)
       (world s) = (Ok span, w1) ->
     _run call message run_context {| self := self s; world := w1 |}
     = (Ok response, s2) ->
     Span.is_recording span (world s2) = (Ok true, w3) ->
     Span.set_attribute span "tool_response"
       match response with
       | Returned p => model_response_str p
       | RetryPrompt p => model_response p
       end w3 = (Raise e, w4) ->
     fst (Span.__exit__ span (Some e) w4) = Ok tt ->
     run call args_as_json_str model_response_str model_response json_dumps
       message run_context tracer true s
     = (Raise e,
        {| self := self s2;
           world := snd (Span.__exit__ span (Some e) w4) |})).
Proof.
  split.
  - intros include_content e w1 Hstart.
    unfold run, bind, get_self, user_call. cbn [self world].
    rewrite Hstart. reflexivity.
  - intros span w1 response s2 w3 e w4 Hstart Hrun Hrec Hset Hexit.
    unfold run. unfold bind at 1. unfold get_self at 1. cbn iota beta.
    unfold bind at 1. unfold user_call at 1. cbn [self world].
    rewrite Hstart. cbn iota beta.
    unfold with_block. unfold bind at 1. rewrite Hrun.
    unfold bind at 1. unfold bind at 1. unfold user_call at 1.
    rewrite Hrec. cbn iota beta. unfold user_call at 1. cbn [self world].
    rewrite Hset. cbn iota beta.
    unfold user_call. cbn [self world].
    destruct (Span.__exit__ span (Some e) w4) as [o w5].
    cbn [fst snd] in *. subst o. reflexivity.
Qed.

End TracedRuns.

(* ================================================================== *)
(** ** The further theorems at work *)

Lemma counter_after_normal_return_witness :
  let s := demo_store "double" (Some 1) 0 in
  let r := _run FunctionSchema_call (demo_message malformed) demo_context s in
  exists p,
    fst r = Ok (RetryPrompt p) /\
    exists k,
      max_retries (self (snd r)) = Some k /\
      current_retry (self (snd r)) = current_retry (self s) + 1 /\
      current_retry (self (snd r)) <= k.
Proof.
  cbn zeta. eexists. split; [reflexivity|].
  exact (proj2 (counter_after_normal_return FunctionSchema_call
                  (demo_message malformed) demo_context
                  (demo_store "double" (Some 1) 0))
           _ eq_refl).
Defined.

Lemma exceptions_are_matched_per_stage_witness :
  validate_args (self demo_picky_store) (demo_message ArgsNone)
  = Raise (ModelRetry "give me arguments") /\
  _run FunctionSchema_call (demo_message ArgsNone) demo_context
    demo_picky_store
  = (Raise (ModelRetry "give me arguments"), demo_picky_store).
Proof.
  assert (Hv : validate_args (self demo_picky_store) (demo_message ArgsNone)
               = Raise (ModelRetry "give me arguments"))
    by reflexivity.
  split; [exact Hv|].
  exact (proj1 (proj2 (exceptions_are_matched_per_stage FunctionSchema_call
                         (demo_message ArgsNone) demo_context
                         demo_picky_store))
           _ Hv).
Defined.

Lemma rejected_arguments_never_reach_the_callable_witness :
  let s := demo_store "double" (Some 1) 0 in
  validate_args (self s) (demo_message malformed)
  = Raise (ValidationError [json_invalid "oops"]) /\
  world (snd (_run FunctionSchema_call (demo_message malformed)
                demo_context s)) = world s.
Proof.
  cbn zeta.
  assert (Hv : validate_args (self (demo_store "double" (Some 1) 0))
                 (demo_message malformed)
               = Raise (ValidationError [json_invalid "oops"]))
    by reflexivity.
  split; [exact Hv|].
  exact (proj1 (rejected_arguments_never_reach_the_callable
                  FunctionSchema_call (demo_message malformed) demo_context
                  (demo_store "double" (Some 1) 0) _ Hv)).
Defined.

Lemma exhausted_stays_fatal_witness :
  let s := demo_store "double" (Some 1) 1 in
  let calls := [(demo_message malformed, demo_context);
                (demo_message negative_x, demo_context)] in
  (exhausted (self s) = true /\
   all_recoverable FunctionSchema_call calls s) /\
  Forall (fun r =>
            exists cause,
              r = Raise (UnexpectedModelBehavior
                           (exceeded_text (max_retries (self s)))
                           (Some cause)))
         (fst (run_all FunctionSchema_call calls s)).
Proof.
  cbn zeta.
  assert (Hex : exhausted (self (demo_store "double" (Some 1) 1)) = true)
    by reflexivity.
  assert (Hall : all_recoverable FunctionSchema_call
                   [(demo_message malformed, demo_context);
                    (demo_message negative_x, demo_context)]
                   (demo_store "double" (Some 1) 1))
    by (vm_compute; repeat split).
  split; [split; assumption|].
  exact (exhausted_stays_fatal FunctionSchema_call _ _ Hex Hall).
Defined.

(** A counter far past a bound of 1: a success, then one Retry Prompt
    again before the fatal error. *)
Lemma success_restores_the_budget_witness :
  let s := demo_store "double" (Some 1) 5 in
  let message := demo_message positive_x in
  let calls := [(demo_message malformed, demo_context);
                (demo_message negative_x, demo_context)] in
  let s' := snd (_run FunctionSchema_call message demo_context s) in
  (max_retries (self s) = Some 1 /\
   validate_args (self s) message = Ok (PDict [("x", PInt 21)]) /\
   FunctionSchema_call (function_schema (self s)) (PDict [("x", PInt 21)])
     (derived_context (self s) message demo_context) (world s)
   = (Ok (PInt 42), 1%nat) /\
   all_recoverable FunctionSchema_call calls s') /\
  forall (i : nat) (r : outcome response),
    nth_error (fst (run_all FunctionSchema_call calls s')) i = Some r ->
    (Z.of_nat i < 1 -> exists p, r = Ok (RetryPrompt p)) /\
    (Z.of_nat i = 1 ->
     exists cause,
       r = Raise (UnexpectedModelBehavior
                    ("Tool exceeded max retries count of " ++ str_int 1)
                    (Some cause))).
Proof.
  cbn zeta.
  assert (Hk : max_retries (self (demo_store "double" (Some 1) 5)) = Some 1)
    by reflexivity.
  assert (Hv : validate_args (self (demo_store "double" (Some 1) 5))
                 (demo_message positive_x) = Ok (PDict [("x", PInt 21)]))
    by reflexivity.
  assert (Hc : FunctionSchema_call
                 (function_schema (self (demo_store "double" (Some 1) 5)))
                 (PDict [("x", PInt 21)])
                 (derived_context (self (demo_store "double" (Some 1) 5))
                    (demo_message positive_x) demo_context)
                 (world (demo_store "double" (Some 1) 5))
               = (Ok (PInt 42), 1%nat))
    by reflexivity.
  assert (Hall : all_recoverable FunctionSchema_call
                   [(demo_message malformed, demo_context);
                    (demo_message negative_x, demo_context)]
                   (snd (_run FunctionSchema_call (demo_message positive_x)
                           demo_context (demo_store "double" (Some 1) 5))))
    by (vm_compute; repeat split).
  split; [repeat split; assumption|].
  exact (success_restores_the_budget FunctionSchema_call _ _ _ _ _ _ _ _
           Hk Hv Hc Hall).
Defined.

(** A schema passed to [__init__] overrides [takes_ctx=False]; an empty
    [name] gives way to the function's name. *)
Lemma init_invariants_witness :
  let t := __init__ (fun _ (_ : unit) _ _ _ => demo_schema) demo_function
             (Some false) (Some 2) (Some ""%string) None None auto false tt
             None (Some demo_schema) in
  Callable.__name__ demo_function <> ""%string /\
  takes_ctx t = true /\
  name t = "double"%string /\
  name t <> ""%string.
Proof.
  cbn zeta.
  assert (Hn : Callable.__name__ demo_function <> ""%string)
    by discriminate.
  split; [exact Hn|]. split; [reflexivity|]. split; [reflexivity|].
  pose proof (init_invariants (fun _ (_ : unit) _ _ _ => demo_schema)
                FunctionSchema_call demo_function
                (Some false) (Some 2) (Some ""%string) None None auto false
                tt None (Some demo_schema) O []) as H.
  cbn zeta in H. destruct H as (_ & _ & _ & _ & H).
  exact (H Hn).
Defined.

Lemma typed_dict_schema_additional_properties_witness :
  let schema := [("type", PStr "typed-dict"); ("total", PBool true)] in
  (dict_get "additionalProperties" (demo_super_typed_dict_schema schema)
   = None /\
   dict_get "total" schema = Some (PBool true)) /\
  dict_get "additionalProperties"
    (typed_dict_schema demo_super_typed_dict_schema schema)
  = Some (PBool false).
Proof.
  cbn zeta.
  assert (Ha : dict_get "additionalProperties"
                 (demo_super_typed_dict_schema
                    [("type", PStr "typed-dict"); ("total", PBool true)])
               = None)
    by reflexivity.
  assert (Ht : dict_get "total"
                 [("type", PStr "typed-dict"); ("total", PBool true)]
               = Some (PBool true))
    by reflexivity.
  split; [split; assumption|].
  exact (proj1 (proj2 (proj2
           (typed_dict_schema_additional_properties
              demo_super_typed_dict_schema
              [("type", PStr "typed-dict"); ("total", PBool true)])))
           Ha (or_intror (or_intror Ht))).
Defined.

Lemma named_required_fields_lose_their_titles_witness :
  let r := [("type", PStr "object");
            ("title", PStr "double");
            ("properties",
             PDict [("x", PDict [("type", PStr "integer")])]);
            ("required", PList [PStr "x"])] in
  _named_required_fields_schema demo_super_named_required_fields_schema []
  = Some r /\
  dict_get "title" r
  = dict_get "title" (demo_super_named_required_fields_schema []).
Proof.
  cbn zeta.
  assert (E : _named_required_fields_schema
                demo_super_named_required_fields_schema []
              = Some [("type", PStr "object");
                      ("title", PStr "double");
                      ("properties",
                       PDict [("x", PDict [("type", PStr "integer")])]);
                      ("required", PList [PStr "x"])])
    by reflexivity.
  split; [exact E|].
  refine (proj1 (named_required_fields_lose_their_titles
                   demo_super_named_required_fields_schema [] _ E)
            "title"%string _).
  discriminate.
Defined.

Lemma named_required_fields_schema_returns_witness :
  let properties := [("x", PDict [("title", PStr "X");
                                  ("type", PStr "integer")])] in
  dict_get "properties" (demo_super_named_required_fields_schema [])
  = Some (PDict properties) /\
  (forall p v, dict_get p properties = Some v -> exists d, v = PDict d) /\
  exists r,
    _named_required_fields_schema demo_super_named_required_fields_schema []
    = Some r.
Proof.
  cbn zeta.
  assert (Hp : dict_get "properties"
                 (demo_super_named_required_fields_schema [])
               = Some (PDict [("x", PDict [("title", PStr "X");
                                           ("type", PStr "integer")])]))
    by reflexivity.
  assert (Hall : forall p v,
             dict_get p [("x", PDict [("title", PStr "X");
                                      ("type", PStr "integer")])] = Some v ->
             exists d, v = PDict d).
  { intros p v. cbn [dict_get].
    destruct (String.eqb p "x"); [|discriminate].
    intros H. injection H as <-. eexists. reflexivity. }
  split; [exact Hp|]. split; [exact Hall|].
  exact (proj2 (proj2 (named_required_fields_schema_returns
                         demo_super_named_required_fields_schema [])
                  _ Hp) Hall).
Defined.

Lemma demo_tracer_is_quiet : quiet_tracer demo_tracer.
Proof.
  intros n a w. exists demo_span. split; [reflexivity|].
  repeat split. intros w'. exists true. reflexivity.
Defined.

Lemma run_is_run_inside_the_span_witness :
  quiet_tracer demo_tracer /\
  fst (demo_run (demo_message positive_x) demo_context true
         (demo_store "double" (Some 1) 0))
  = fst (_run FunctionSchema_call (demo_message positive_x) demo_context
           {| self := demo_tool "double" (Some 1) 0; world := 100%nat |}).
Proof.
  split; [exact demo_tracer_is_quiet|].
  exact (proj1 (run_is_run_inside_the_span FunctionSchema_call
                  (fun _ => "<arguments>"%string)
                  (fun _ => "<return>"%string) (fun _ => "<retry>"%string)
                  (fun _ => "<schema>"%string)
                  (demo_message positive_x) demo_context demo_tracer true
                  (demo_store "double" (Some 1) 0) demo_tracer_is_quiet)).
Defined.

(** What [run] does to the world of the example: the span is opened
    (100), the callable is called once (1), the response is written (10)
    and the span is closed (1000). *)
Example run_scenario :
  demo_run (demo_message positive_x) demo_context true
    (demo_store "double" (Some 1) 3)
  = (Ok (Returned
           {| ToolReturnPart.tool_name := "double";
              ToolReturnPart.content := PInt 42;
              ToolReturnPart.tool_call_id := "call_1" |}),
     {| self := demo_tool "double" (Some 1) 0; world := 1111%nat |}).
Proof. vm_compute. reflexivity. Qed.

Lemma retry_bound_through_run_witness :
  let calls := [(demo_message malformed, demo_context);
                (demo_message negative_x, demo_context)] in
  let s := demo_store "double" (Some 1) 0 in
  let outcomes :=
    fst (run_all_traced FunctionSchema_call
           (fun _ => "<arguments>"%string) (fun _ => "<return>"%string)
           (fun _ => "<retry>"%string) (fun _ => "<schema>"%string)
           demo_tracer true calls s) in
  (quiet_tracer demo_tracer /\
   max_retries (self s) = Some 1 /\
   current_retry (self s) = 0 /\
   all_recoverable_traced FunctionSchema_call
     (fun _ => "<arguments>"%string) (fun _ => "<return>"%string)
     (fun _ => "<retry>"%string) (fun _ => "<schema>"%string)
     demo_tracer true calls s) /\
  length outcomes = 2%nat /\
  forall (i : nat) (r : outcome response),
    nth_error outcomes i = Some r ->
    (Z.of_nat i < 1 -> exists p, r = Ok (RetryPrompt p)) /\
    (Z.of_nat i = 1 ->
     exists cause,
       r = Raise (UnexpectedModelBehavior
                    ("Tool exceeded max retries count of " ++ str_int 1)
                    (Some cause))).
Proof.
  cbn zeta.
  assert (Hk : max_retries (self (demo_store "double" (Some 1) 0)) = Some 1)
    by reflexivity.
  assert (H0 : current_retry (self (demo_store "double" (Some 1) 0)) = 0)
    by reflexivity.
  assert (Hall : all_recoverable_traced FunctionSchema_call
                   (fun _ => "<arguments>"%string)
                   (fun _ => "<return>"%string) (fun _ => "<retry>"%string)
                   (fun _ => "<schema>"%string) demo_tracer true
                   [(demo_message malformed, demo_context);
                    (demo_message negative_x, demo_context)]
                   (demo_store "double" (Some 1) 0))
    by (vm_compute; repeat split).
  split; [repeat split; solve [assumption|exact demo_tracer_is_quiet]|].
  exact (retry_bound_through_run FunctionSchema_call _ _ _ _ demo_tracer
           true 1 _ _ demo_tracer_is_quiet Hk H0 Hall).
Defined.

(** A tracer that is shut down: the call would have succeeded, but the
    callable is not reached and the counter stays at 1. *)
Lemma tracer_failures_propagate_witness :
  let s := demo_store "double" (Some 2) 1 in
  let message := demo_message positive_x in
  Tracer.start_as_current_span demo_closed_tracer "running tool"
    (span_attributes (fun _ => "<arguments>"%string)
       (fun _ => "<schema>"%string) (self s) message true) (world s)
  = (Raise (OtherException "RuntimeError" "tracer is shut down"), 100%nat) /\
  run FunctionSchema_call
    (fun _ => "<arguments>"%string) (fun _ => "<return>"%string)
    (fun _ => "<retry>"%string) (fun _ => "<schema>"%string)
    message demo_context demo_closed_tracer true s
  = (Raise (OtherException "RuntimeError" "tracer is shut down"),
     {| self := self s; world := 100%nat |}).
Proof.
  cbn zeta.
  assert (Hs : Tracer.start_as_current_span demo_closed_tracer "running tool"
                 (span_attributes (fun _ => "<arguments>"%string)
                    (fun _ => "<schema>"%string)
                    (self (demo_store "double" (Some 2) 1))
                    (demo_message positive_x) true)
                 (world (demo_store "double" (Some 2) 1))
               = (Raise (OtherException "RuntimeError" "tracer is shut down"),
                  100%nat))
    by reflexivity.
  split; [exact Hs|].
  exact (proj1 (tracer_failures_propagate FunctionSchema_call
                  (fun _ => "<arguments>"%string)
                  (fun _ => "<return>"%string) (fun _ => "<retry>"%string)
                  (fun _ => "<schema>"%string)
                  (demo_message positive_x) demo_context demo_closed_tracer
                  (demo_store "double" (Some 2) 1))
           true _ _ Hs).
Defined.

(** A span that cannot be written: the callable has run and the counter
    is back at 0, but the caller gets the tracer's exception, not the
    response. *)
Example unwritable_span_scenario :
  run FunctionSchema_call
    (fun _ => "<arguments>"%string) (fun _ => "<return>"%string)
    (fun _ => "<retry>"%string) (fun _ => "<schema>"%string)
    (demo_message positive_x) demo_context demo_readonly_tracer true
    (demo_store "double" (Some 2) 1)
  = (Raise (OtherException "RuntimeError" "span is read-only"),
     {| self := demo_tool "double" (Some 2) 0; world := 1111%nat |}).
Proof. vm_compute. reflexivity. Qed.
